(** * MedMetrics: the synthetic glucose data generator [data_gen.py]

    The script seeds numpy's global random state, builds four columns
    (timestamps, patient labels, rounded normal samples, meal labels),
    assembles them in a pandas [DataFrame], writes it with [to_csv] and prints
    a notice.  This development embeds the script together with the parts of
    the Python standard library, numpy and pandas that it calls, and proves
    the properties of the generated file.

    Conventions of the embedding:
    - Python integers are [Z]; a raised exception is the [Raise] outcome of
      the monad [M], which threads the process state [World];
    - [datetime] and [timedelta] follow CPython's [datetime] module: field
      records, ordinals of the proleptic Gregorian calendar, and the
      [OverflowError] outside years 1..9999;
    - numpy's random generator is an interface ([RandomState]): the bit
      stream of the Mersenne Twister is not unfolded, only the contract of
      its draws is used;
    - a binary64 sample is modelled by the rational it denotes, and the result
      of [round(2)] by its sign and its number of hundredths, which is what
      numpy's shortest round-trip printing shows;
    - the file system and the standard output are an append-only list of
      events. *)

From Stdlib Require Import ZArith List String Ascii Lia Bool QArith Qround.
From Stdlib Require Import DecimalString.
Import ListNotations.

Open Scope string_scope.
Open Scope list_scope.
Open Scope Z_scope.

(** ** Exceptions and outcomes *)

Inductive exn : Type :=
| OverflowError
| ValueError
| IndexError.

Inductive result (A : Type) : Type :=
| Ok (a : A)
| Raise (e : exn).

Arguments Ok {A} a.
Arguments Raise {A} e.

Definition bind_result {A B : Type} (r : result A) (k : A -> result B) : result B :=
  match r with
  | Ok a => k a
  | Raise e => Raise e
  end.

(** A list comprehension whose body can raise: elements are evaluated from
    left to right and the first exception aborts the comprehension. *)
Fixpoint comprehension {A B : Type} (f : A -> result B) (l : list A) : result (list B) :=
  match l with
  | [] => Ok []
  | a :: l' =>
      bind_result (f a) (fun b =>
      bind_result (comprehension f l') (fun bs => Ok (b :: bs)))
  end.

(** [range(n)]: the integers [0 .. n-1], empty when [n <= 0]. *)
Definition range (n : Z) : list Z :=
  map Z.of_nat (seq 0 (Z.to_nat n)).

(** ** The [datetime] module *)

Module Datetime.

Definition MINYEAR : Z := 1.
Definition MAXYEAR : Z := 9999.

Definition is_leap (year : Z) : bool :=
  (year mod 4 =? 0) && (negb (year mod 100 =? 0) || (year mod 400 =? 0)).

Definition days_before_year (year : Z) : Z :=
  let y := year - 1 in
  y * 365 + y / 4 - y / 100 + y / 400.

(** The tables are indexed by the month, 1..12; entry 0 is the placeholder -1
    of the Python lists. *)
Definition DAYS_IN_MONTH : list Z :=
  [-1; 31; 28; 31; 30; 31; 30; 31; 31; 30; 31; 30; 31].

Definition DAYS_BEFORE_MONTH : list Z :=
  [-1; 0; 31; 59; 90; 120; 151; 181; 212; 243; 273; 304; 334].

Definition table (t : list Z) (month : Z) : Z :=
  nth (Z.to_nat month) t (-1).

Definition days_in_month (year month : Z) : Z :=
  if (month =? 2) && is_leap year then 29 else table DAYS_IN_MONTH month.

Definition days_before_month (year month : Z) : Z :=
  table DAYS_BEFORE_MONTH month
  + (if (2 <? month) && is_leap year then 1 else 0).

Definition ymd2ord (year month day : Z) : Z :=
  days_before_year year + days_before_month year month + day.

Definition DI400Y : Z := Eval cbv in days_before_year 401.
Definition DI100Y : Z := Eval cbv in days_before_year 101.
Definition DI4Y : Z := Eval cbv in days_before_year 5.

Definition MAXORDINAL : Z := Eval cbv in ymd2ord 9999 12 31.

(** [_ord2ymd]: the date of an ordinal, by 400-, 100-, 4- and 1-year
    cycles, then an estimate of the month that is too large by at most one. *)
Definition ord2ymd (ordinal : Z) : Z * Z * Z :=
  let n := ordinal - 1 in
  let n400 := n / DI400Y in
  let n := n mod DI400Y in
  let year := n400 * 400 + 1 in
  let n100 := n / DI100Y in
  let n := n mod DI100Y in
  let n4 := n / DI4Y in
  let n := n mod DI4Y in
  let n1 := n / 365 in
  let n := n mod 365 in
  let year := year + n100 * 100 + n4 * 4 + n1 in
  if (n1 =? 4) || (n100 =? 4) then (year - 1, 12, 31)
  else
    let leapyear := (n1 =? 3) && (negb (n4 =? 24) || (n100 =? 3)) in
    let month := Z.shiftr (n + 50) 5 in
    let preceding :=
      table DAYS_BEFORE_MONTH month
      + (if (2 <? month) && leapyear then 1 else 0) in
    if n <? preceding then
      let month := month - 1 in
      let preceding :=
        preceding
        - (table DAYS_IN_MONTH month
           + (if (month =? 2) && leapyear then 1 else 0)) in
      (year, month, n - preceding + 1)
    else (year, month, n - preceding + 1).

(** A [timedelta] is kept normalised: [0 <= seconds < 86400] and
    [0 <= microseconds < 1000000]. *)
Record timedelta : Type := mk_timedelta {
  td_days : Z;
  td_seconds : Z;
  td_microseconds : Z
}.

(** The constructor, on integer arguments: everything is reduced to days,
    seconds and microseconds, carries are propagated upwards, and more than
    999999999 days in either direction is an [OverflowError]. *)
Definition timedelta_new
    (days seconds microseconds milliseconds minutes hours weeks : Z)
    : result timedelta :=
  let d := days + weeks * 7 in
  let s := seconds + minutes * 60 + hours * 3600 in
  let us := microseconds + milliseconds * 1000 in
  let s := s + us / 1000000 in
  let us := us mod 1000000 in
  let d := d + s / 86400 in
  let s := s mod 86400 in
  if Z.abs d >? 999999999 then Raise OverflowError
  else Ok (mk_timedelta d s us).

Definition timedelta_add (a b : timedelta) : result timedelta :=
  timedelta_new (td_days a + td_days b) (td_seconds a + td_seconds b)
                (td_microseconds a + td_microseconds b) 0 0 0 0.

Record datetime : Type := mk_datetime {
  year : Z;
  month : Z;
  day : Z;
  hour : Z;
  minute : Z;
  second : Z;
  microsecond : Z
}.

(** [datetime(y, m, d)]: the time fields default to 0; fields out of range
    are a [ValueError]. *)
Definition datetime_new (y m d : Z) : result datetime :=
  if negb ((MINYEAR <=? y) && (y <=? MAXYEAR)) then Raise ValueError
  else if negb ((1 <=? m) && (m <=? 12)) then Raise ValueError
  else if negb ((1 <=? d) && (d <=? days_in_month y m)) then Raise ValueError
  else Ok (mk_datetime y m d 0 0 0 0).

Definition toordinal (t : datetime) : Z :=
  ymd2ord (year t) (month t) (day t).

(** [datetime.__add__]: the date and time become one [timedelta] counted
    from ordinal 0, the argument is added, and the sum is converted back if
    its day is an ordinal of the years 1..9999. *)
Definition datetime_add (t : datetime) (other : timedelta) : result datetime :=
  bind_result
    (timedelta_new (toordinal t) (second t) (microsecond t) 0
                   (minute t) (hour t) 0) (fun delta =>
  bind_result (timedelta_add delta other) (fun delta =>
  let hour := td_seconds delta / 3600 in
  let rem := td_seconds delta mod 3600 in
  let minute := rem / 60 in
  let second := rem mod 60 in
  if (0 <? td_days delta) && (td_days delta <=? MAXORDINAL) then
    let '(y, m, d) := ord2ymd (td_days delta) in
    Ok (mk_datetime y m d hour minute second (td_microseconds delta))
  else Raise OverflowError)).

(** [datetime.__sub__] on two datetimes. *)
Definition datetime_sub (a b : datetime) : result timedelta :=
  let secs1 := second a + minute a * 60 + hour a * 3600 in
  let secs2 := second b + minute b * 60 + hour b * 3600 in
  timedelta_new (toordinal a - toordinal b) (secs1 - secs2)
                (microsecond a - microsecond b) 0 0 0 0.

(** Comparison is the lexicographic comparison of the field tuples. *)
Definition fields (t : datetime) : list Z :=
  [year t; month t; day t; hour t; minute t; second t; microsecond t].

Fixpoint cmp (a b : list Z) : comparison :=
  match a, b with
  | x :: a', y :: b' =>
      match x ?= y with
      | Eq => cmp a' b'
      | c => c
      end
  | [], [] => Eq
  | [], _ :: _ => Lt
  | _ :: _, [] => Gt
  end.

Definition datetime_lt (a b : datetime) : bool :=
  match cmp (fields a) (fields b) with
  | Lt => true
  | _ => false
  end.

End Datetime.

(** ** Text *)

Definition comma : ascii := ","%char.
Definition dquote : ascii := Ascii.ascii_of_nat 34.
Definition LF : ascii := Ascii.ascii_of_nat 10.
Definition CR : ascii := Ascii.ascii_of_nat 13.

(** [str(z)] of an integer. *)
Definition str_nonneg (z : Z) : string :=
  NilZero.string_of_uint (N.to_uint (Z.to_N z)).

Definition str_int (z : Z) : string :=
  if z <? 0 then String "-" (str_nonneg (- z)) else str_nonneg z.

Fixpoint replicate (n : nat) (c : ascii) : string :=
  match n with
  | O => EmptyString
  | S n' => String c (replicate n' c)
  end.

(** [format(z, '0wd')] for [z >= 0]: zeros on the left up to width [w]. *)
Definition zfill (w : nat) (z : Z) : string :=
  let s := str_nonneg z in
  (replicate (w - String.length s) "0" ++ s)%string.

Fixpoint join (sep : string) (l : list string) : string :=
  match l with
  | [] => EmptyString
  | [s] => s
  | s :: l' => (s ++ sep ++ join sep l')%string
  end.

Fixpoint count_char (c : ascii) (s : string) : nat :=
  match s with
  | EmptyString => O
  | String c' s' =>
      ((if Ascii.eqb c c' then 1 else 0) + count_char c s')%nat
  end.

Fixpoint contains_char (c : ascii) (s : string) : bool :=
  match s with
  | EmptyString => false
  | String c' s' => Ascii.eqb c c' || contains_char c s'
  end.

(** [needle in s]. *)
Fixpoint substring_of (needle s : string) : bool :=
  String.prefix needle s ||
  match s with
  | EmptyString => false
  | String _ s' => substring_of needle s'
  end.

(** [s.split(c)]: the pieces of [s] between the occurrences of [c]. *)
Fixpoint split (c : ascii) (s : string) : list string :=
  match s with
  | EmptyString => [EmptyString]
  | String a s' =>
      if Ascii.eqb a c then EmptyString :: split c s'
      else match split c s' with
           | h :: t => String a h :: t
           | [] => [String a EmptyString]
           end
  end.

Fixpoint strip_cr (s : string) : string :=
  match s with
  | EmptyString => EmptyString
  | String a s' =>
      match s' with
      | EmptyString => if Ascii.eqb a CR then EmptyString else s
      | String _ _ => String a (strip_cr s')
      end
  end.

Fixpoint drop_final_empty (pieces : list string) : list string :=
  match pieces with
  | [] => []
  | p :: rest =>
      match rest with
      | [] => match p with EmptyString => [] | String _ _ => [p] end
      | _ :: _ => p :: drop_final_empty rest
      end
  end.

(** The lines of a text file as a reader sees them: the pieces between the
    LFs, without the CR of a CR LF pair, and nothing after the final LF. *)
Definition file_lines (text : string) : list string :=
  map strip_cr (drop_final_empty (split LF text)).

Definition line_count (s : string) : nat := count_char LF s.

Fixpoint all_chars (p : ascii -> bool) (s : string) : bool :=
  match s with
  | EmptyString => true
  | String c s' => p c && all_chars p s'
  end.

Definition is_digit (c : ascii) : bool :=
  let n := Ascii.nat_of_ascii c in (48 <=? n)%nat && (n <=? 57)%nat.

(** The characters that make the CSV writer quote a field. *)
Definition is_special (c : ascii) : bool :=
  Ascii.eqb c comma || Ascii.eqb c dquote || Ascii.eqb c CR || Ascii.eqb c LF.

Definition plain (s : string) : bool :=
  all_chars (fun c => negb (is_special c)) s.

(** ** numpy: the legacy global random state and [round] *)

(** The generator behind [np.random]: a state, its initialisation from a
    32-bit seed, a draw of an integer in [0 .. max] (masked rejection
    sampling in numpy) and a standard normal draw (the polar method, whose
    results lie within 13 of zero because the uniform draws are multiples of
    2^-53). *)
Class RandomState : Type := {
  rk_state : Type;
  rk_seed : Z -> rk_state;
  rk_interval : Z -> rk_state -> Z * rk_state;
  rk_gauss : rk_state -> Q * rk_state;
  rk_interval_range :
    forall max s, 0 <= max -> 0 <= fst (rk_interval max s) <= max;
  rk_gauss_range :
    forall s, (- (13) <= fst (rk_gauss s) /\ fst (rk_gauss s) <= 13)%Q
}.

(** The result of [round(2)]: a binary64 that is the nearest one to
    [hundredths / 100], with the sign bit kept apart because a negative
    sample can round to -0.0. *)
Record float2 : Type := mk_float2 {
  negative : bool;
  hundredths : Z
}.

Definition float2_value (d : float2) : Q :=
  let m := (inject_Z (hundredths d) / 100)%Q in
  if negative d then Qopp m else m.

(** [rint]: the nearest integer, ties to the even one. *)
Definition rint (x : Q) : Z :=
  let f := Qfloor x in
  match Qcompare (x - inject_Z f)%Q (1 # 2)%Q with
  | Lt => f
  | Gt => f + 1
  | Eq => if Z.even f then f else f + 1
  end.

(** [ndarray.round(2)] on one element: multiply by 100, [rint], divide
    by 100.  The product is taken exactly here; binary64 rounds it, which can
    move a sample lying next to a tie to the neighbouring hundredth. *)
Definition around2 (x : Q) : float2 :=
  mk_float2 (negb (Qle_bool 0%Q x)) (Z.abs (rint (x * 100)%Q)).

(** [str] of a binary64 as numpy prints it: the shortest decimal that reads
    back as the same number, with at least one fraction digit.  For a
    [float2] these are the hundredths without a trailing zero.  Positional
    notation is used below 1e16, far above what [normal] can return. *)
Definition float_str (d : float2) : string :=
  let h := hundredths d in
  let sign := if negative d then "-" else "" in
  let fraction :=
    if h mod 10 =? 0 then str_nonneg (h / 10 mod 10) else zfill 2 (h mod 100) in
  (sign ++ str_nonneg (h / 100) ++ "." ++ fraction)%string.

(** The number of characters after the decimal point. *)
Fixpoint fraction_digits (s : string) : option nat :=
  match s with
  | EmptyString => None
  | String c s' =>
      if Ascii.eqb c "."%char then Some (String.length s')
      else fraction_digits s'
  end.

(** ** pandas: columns, frames and the CSV writer *)

Inductive column : Type :=
| DatetimeColumn (values : list Datetime.datetime)
| FloatColumn (values : list float2)
| ObjectColumn (values : list string).

Definition column_length (c : column) : nat :=
  match c with
  | DatetimeColumn v => List.length v
  | FloatColumn v => List.length v
  | ObjectColumn v => List.length v
  end.

(** A frame: the named columns, in the order of the dictionary. *)
Definition DataFrame : Type := list (string * column).

Definition same_length (data : list (string * column)) : bool :=
  match data with
  | [] => true
  | (_, c) :: rest =>
      forallb (fun nc => Nat.eqb (column_length (snd nc)) (column_length c)) rest
  end.

Definition DataFrame_new (data : list (string * column)) : result DataFrame :=
  if same_length data then Ok data else Raise ValueError.

Definition nrows (df : DataFrame) : nat :=
  match df with
  | [] => O
  | (_, c) :: _ => column_length c
  end.

Definition is_date_only (t : Datetime.datetime) : bool :=
  (Datetime.hour t =? 0) && (Datetime.minute t =? 0)
  && (Datetime.second t =? 0) && (Datetime.microsecond t =? 0).

Definition date_str (t : Datetime.datetime) : string :=
  (str_nonneg (Datetime.year t) ++ "-" ++ zfill 2 (Datetime.month t)
   ++ "-" ++ zfill 2 (Datetime.day t))%string.

Definition time_str (t : Datetime.datetime) : string :=
  (zfill 2 (Datetime.hour t) ++ ":" ++ zfill 2 (Datetime.minute t)
   ++ ":" ++ zfill 2 (Datetime.second t))%string.

(** The fraction of a second is shown with the precision that the whole
    column needs: none, milliseconds or microseconds. *)
Definition subsecond_str (col : list Datetime.datetime) (t : Datetime.datetime)
    : string :=
  let us := Datetime.microsecond t in
  if forallb (fun u => Datetime.microsecond u =? 0) col then ""
  else if forallb (fun u => Datetime.microsecond u mod 1000 =? 0) col
  then String "." (zfill 3 (us / 1000))
  else String "." (zfill 6 us).

(** A datetime column is written as dates when no value has a time of day,
    and as date, space, time otherwise. *)
Definition format_datetimes (col : list Datetime.datetime) : list string :=
  if forallb is_date_only col then map date_str col
  else map (fun t => (date_str t ++ " " ++ time_str t
                      ++ subsecond_str col t)%string) col.

Definition format_column (c : column) : list string :=
  match c with
  | DatetimeColumn v => format_datetimes v
  | FloatColumn v => map float_str v
  | ObjectColumn v => v
  end.

(** The [csv] writer with minimal quoting: a field is quoted when it
    contains the delimiter, the quote character or a line break, and its
    quote characters are doubled; a row that consists of one empty field is
    written as a pair of quotes. *)
Definition needs_quoting (s : string) : bool :=
  contains_char comma s || contains_char dquote s
  || contains_char CR s || contains_char LF s.

Fixpoint double_quotes (s : string) : string :=
  match s with
  | EmptyString => EmptyString
  | String c s' =>
      if Ascii.eqb c dquote then String c (String c (double_quotes s'))
      else String c (double_quotes s')
  end.

Definition quoted (s : string) : string :=
  String dquote (double_quotes s ++ String dquote EmptyString)%string.

Definition csv_field (s : string) : string :=
  if needs_quoting s then quoted s else s.

Definition csv_row (fields : list string) : string :=
  match fields with
  | [EmptyString] => quoted EmptyString
  | _ => join "," (map csv_field fields)
  end.

(** [os.linesep], the default line terminator of [to_csv]. *)
Inductive os_name : Type := posix | nt.

Definition linesep (os : os_name) : string :=
  match os with
  | posix => String LF EmptyString
  | nt => String CR (String LF EmptyString)
  end.

(** Row [i] of the formatted columns. *)
Definition row_fields (cols : list (list string)) (i : nat) : list string :=
  map (fun col => nth i col EmptyString) cols.

(** The text of [df.to_csv(index=...)]: the header, then one row per index,
    each followed by the line terminator; with [index=True] every row starts
    with its row number, under an empty column name.  pandas formats the
    rows in pieces of [100000 // number of columns] rows; the columns are
    formatted here in one piece, which is the same text except where a piece
    of a datetime column is all midnights while the column is not. *)
Definition csv_text (os : os_name) (index : bool) (df : DataFrame) : string :=
  let cols := map (fun nc => format_column (snd nc)) df in
  let header := (if index then [EmptyString] else []) ++ map fst df in
  let body :=
    map (fun i => (if index then [str_nonneg (Z.of_nat i)] else [])
                  ++ row_fields cols i)
        (seq 0 (nrows df)) in
  String.concat EmptyString
    (map (fun r => (csv_row r ++ linesep os)%string) (header :: body)).

(** ** The process: random state, files and standard output *)

Inductive event : Type :=
| Written (path text : string)
| Printed (text : string).

(** What a file holds after a run: the text of the last write to its
    path. *)
Fixpoint file_content (path : string) (tr : list event) : option string :=
  match tr with
  | [] => None
  | e :: tr' =>
      match file_content path tr' with
      | Some text => Some text
      | None =>
          match e with
          | Written p text => if String.eqb p path then Some text else None
          | Printed _ => None
          end
      end
  end.

Fixpoint stdout (tr : list event) : string :=
  match tr with
  | [] => EmptyString
  | Written _ _ :: tr' => stdout tr'
  | Printed text :: tr' => (text ++ stdout tr')%string
  end.

Section Process.

Context {R : RandomState}.
Variable os : os_name.

Record World : Type := mk_World {
  random_state : rk_state;
  trace : list event
}.

(** A computation either returns or raises, and leaves the world as it was
    when it stopped. *)
Definition M (A : Type) : Type := World -> result A * World.

Definition ret {A : Type} (a : A) : M A := fun w => (Ok a, w).

Definition raise {A : Type} (e : exn) : M A := fun w => (Raise e, w).

Definition bind {A B : Type} (m : M A) (k : A -> M B) : M B :=
  fun w =>
    match m w with
    | (Ok a, w') => k a w'
    | (Raise e, w') => (Raise e, w')
    end.

Definition lift {A : Type} (r : result A) : M A := fun w => (r, w).

Definition emit (e : event) : M unit :=
  fun w => (Ok tt, mk_World (random_state w) (trace w ++ [e])).

Notation "x <- m ;; k" := (bind m (fun x => k))
  (at level 61, m at next level, right associativity).
Notation "m ;; k" := (bind m (fun _ => k))
  (at level 61, right associativity).

(** [np.random.seed(seed)]: the global state is replaced by the one
    initialised from the seed, which must fit in 32 bits. *)
Definition np_random_seed (seed : Z) : M unit :=
  fun w =>
    if (0 <=? seed) && (seed <? 2 ^ 32)
    then (Ok tt, mk_World (rk_seed seed) (trace w))
    else (Raise ValueError, w).

(** [n] successive draws. *)
Fixpoint draws {A : Type} (f : rk_state -> A * rk_state) (n : nat)
    (s : rk_state) : list A * rk_state :=
  match n with
  | O => ([], s)
  | S n' =>
      let (a, s1) := f s in
      let (l, s2) := draws f n' s1 in
      (a :: l, s2)
  end.

Definition sample {A : Type} (f : rk_state -> A * rk_state) (n : nat)
    : M (list A) :=
  fun w =>
    let (l, s) := draws f n (random_state w) in
    (Ok l, mk_World s (trace w)).

(** [np.random.randint(low, high, size)]. *)
Definition np_random_randint (low high size : Z) : M (list Z) :=
  if high <=? low then raise ValueError
  else if size <? 0 then raise ValueError
  else
    l <- sample (rk_interval (high - low - 1)) (Z.to_nat size) ;;
    ret (map (Z.add low) l).

(** [a[idx]] for each index. *)
Definition take {A : Type} (a : list A) (idx : list Z) : result (list A) :=
  comprehension
    (fun i =>
       if i <? 0 then Raise IndexError
       else match nth_error a (Z.to_nat i) with
            | Some x => Ok x
            | None => Raise IndexError
            end)
    idx.

(** [np.random.choice(a, size)]: uniform indices into [a], with
    replacement. *)
Definition np_random_choice (a : list string) (size : Z) : M (list string) :=
  let pop_size := Z.of_nat (List.length a) in
  if (pop_size =? 0) && negb (size =? 0) then raise ValueError
  else if (pop_size =? 0) then ret []
  else
    idx <- np_random_randint 0 pop_size size ;;
    lift (take a idx).

(** [np.random.normal(loc, scale, size)]: [loc + scale * g] for each normal
    draw [g], taken exactly here where numpy rounds to binary64. *)
Definition np_random_normal (loc scale : Q) (size : Z) : M (list Q) :=
  if negb (Qle_bool 0%Q scale) then raise ValueError
  else if size <? 0 then raise ValueError
  else
    l <- sample rk_gauss (Z.to_nat size) ;;
    ret (map (fun g => (loc + scale * g)%Q) l).

(** [df.to_csv(path, index=...)]: the file is replaced by the text of the
    frame. *)
Definition to_csv (df : DataFrame) (path : string) (index : bool) : M unit :=
  emit (Written path (csv_text os index df)).

(** [print(s)]. *)
Definition print (s : string) : M unit :=
  emit (Printed (s ++ String LF EmptyString)%string).

(** ** The script *)

Definition patients : list string := ["P001"; "P002"; "P003"].

Definition meals : list string := ["Fasting"; "Post-prandial"; "Before sleep"].

Definition notice : string := "¡Archivo glucose_data.csv generado con éxito!".

Definition output_path : string := "glucose_data.csv".

(** [start_date + timedelta(minutes=30*i)]. *)
Definition timestamp_at (start_date : Datetime.datetime) (i : Z)
    : result Datetime.datetime :=
  bind_result (Datetime.timedelta_new 0 0 0 0 (30 * i) 0 0)
              (Datetime.datetime_add start_date).

(** The dictionary [data]: its four entries are evaluated in order, so the
    patient labels, the glucose samples and the meal labels consume the
    random stream one after the other. *)
Definition build_data (start_date : Datetime.datetime) (n_records : Z)
    : M (list (string * column)) :=
  ts <- lift (comprehension (timestamp_at start_date) (range n_records)) ;;
  pid <- np_random_choice patients n_records ;;
  glucose <- np_random_normal 110 25 n_records ;;
  meal <- np_random_choice meals n_records ;;
  ret [("timestamp", DatetimeColumn ts);
       ("patient_id", ObjectColumn pid);
       ("glucose_level", FloatColumn (map around2 glucose));
       ("meal_context", ObjectColumn meal)].

(** The script, with its two configuration constants as parameters. *)
Definition script (seed n_records : Z) : M unit :=
  np_random_seed seed ;;
  start_date <- lift (Datetime.datetime_new 2026 1 1) ;;
  data <- build_data start_date n_records ;;
  df <- lift (DataFrame_new data) ;;
  to_csv df output_path false ;;
  print notice.

Definition main : M unit := script 42 1000.

End Process.

(** A small congruential generator with normal draws between -3 and 3, a
    stand-in for the Mersenne Twister when the script is run on a concrete
    stream; every general statement below holds for any [RandomState]. *)
Definition lcg_next (s : Z) : Z := (1103515245 * s + 12345) mod 2 ^ 31.

Definition lcg_interval (max : Z) (s : Z) : Z * Z :=
  let s' := lcg_next s in ((s' / 65536) mod (max + 1), s').

Definition lcg_gauss (s : Z) : Q * Z :=
  let s' := lcg_next s in
  (Qmake ((s' / 65536) mod 601 - 300) 100, s').

#[export, refine] Instance lcg : RandomState := {|
  rk_state := Z;
  rk_seed := fun seed => seed;
  rk_interval := lcg_interval;
  rk_gauss := lcg_gauss
|}.
Proof.
  - intros max s Hmax. unfold lcg_interval. cbn [fst].
    pose proof (Z.mod_pos_bound (lcg_next s / 65536) (max + 1)). lia.
  - intros s. unfold lcg_gauss. cbn [fst].
    pose proof (Z.mod_pos_bound (lcg_next s / 65536) 601 ltac:(lia)) as H.
    unfold Qle. cbn [Qnum Qden Qopp]. lia.
Defined.

(** ** Vocabulary of the statements *)

(** A date of the proleptic Gregorian calendar. *)
Definition valid_date (y m d : Z) : Prop :=
  1 <= y /\ 1 <= m <= 12 /\ 1 <= d <= Datetime.days_in_month y m.

(** A datetime whose fields [datetime(...)] accepts. *)
Definition valid_datetime (t : Datetime.datetime) : Prop :=
  valid_date (Datetime.year t) (Datetime.month t) (Datetime.day t)
  /\ Datetime.year t <= Datetime.MAXYEAR
  /\ 0 <= Datetime.hour t < 24 /\ 0 <= Datetime.minute t < 60
  /\ 0 <= Datetime.second t < 60 /\ 0 <= Datetime.microsecond t < 1000000.

(** The month and the day of the month, from the zero-based day of the year:
    the second half of [ord2ymd]. *)
Definition month_day (leapyear : bool) (n : Z) : Z * Z :=
  let month := Z.shiftr (n + 50) 5 in
  let preceding :=
    Datetime.table Datetime.DAYS_BEFORE_MONTH month
    + (if (2 <? month) && leapyear then 1 else 0) in
  if n <? preceding then
    let month := month - 1 in
    let preceding :=
      preceding
      - (Datetime.table Datetime.DAYS_IN_MONTH month
         + (if (month =? 2) && leapyear then 1 else 0)) in
    (month, n - preceding + 1)
  else (month, n - preceding + 1).

(** The microseconds from the first instant of year 1 to [t]. *)
Definition instant (t : Datetime.datetime) : Z :=
  (((Datetime.toordinal t - 1) * 24 + Datetime.hour t) * 60
   + Datetime.minute t) * 60000000
  + Datetime.second t * 1000000 + Datetime.microsecond t.

Definition minute_us : Z := 60000000.

(** The value of [start_date]. *)
Definition start_date : Datetime.datetime :=
  Datetime.mk_datetime 2026 1 1 0 0 0 0.

(** The largest [n_records] whose last timestamp is still in year 9999. *)
Definition max_records : Z := 139797264.

(** The closed form of [start_date + timedelta(minutes=30*i)]: 48 half
    hours make a day, and 739617 is the ordinal of the start date. *)
Definition timestamp_value (i : Z) : Datetime.datetime :=
  let '(y, m, d) := Datetime.ord2ymd (739617 + i / 48) in
  Datetime.mk_datetime y m d (i mod 48 / 2) (30 * (i mod 2)) 0 0.

(** A computation that reads and advances the random state and does
    nothing else: it neither looks at the trace nor adds to it. *)
Definition random_only {R : RandomState} {A : Type} (m : M A) : Prop :=
  exists f : rk_state -> result A * rk_state,
    forall w,
      m w = (fst (f (random_state w)),
             mk_World (snd (f (random_state w))) (trace w)).

(** What a line of the file carries before its LF. *)
Definition line_end (os : os_name) : string :=
  match os with
  | posix => ""
  | nt => String CR ""
  end.

(** The frame that the script builds from its four columns. *)
Definition frame (ts : list Datetime.datetime) (pid : list string)
    (glucose : list float2) (meal : list string) : DataFrame :=
  [("timestamp", DatetimeColumn ts);
   ("patient_id", ObjectColumn pid);
   ("glucose_level", FloatColumn glucose);
   ("meal_context", ObjectColumn meal)].

(** A run that completes: from the seeded random state the dictionary
    evaluates to the four columns, and the script then appends exactly two
    events, the file and the notice. *)
Definition generates {R : RandomState} (os : os_name) (seed n_records : Z)
    (w : World) (ts : list Datetime.datetime) (pid : list string)
    (glucose : list float2) (meal : list string) : Prop :=
  exists s,
    build_data start_date n_records (mk_World (rk_seed seed) (trace w))
    = (Ok (frame ts pid glucose meal), mk_World s (trace w))
    /\ script os seed n_records w
       = (Ok tt,
          mk_World s
            (trace w
             ++ [Written output_path
                   (csv_text os false (frame ts pid glucose meal));
                 Printed (notice ++ String LF "")])).

(** The text that [to_csv(..., index=False)] writes for the four columns. *)
Definition file_text (os : os_name) (ts : list Datetime.datetime)
    (pid : list string) (glucose : list float2) (meal : list string)
    : string :=
  csv_text os false (frame ts pid glucose meal).

(** The world in which the examples run: nothing written or printed yet. *)
Definition idle_world {R : RandomState} (s : rk_state) : World :=
  mk_World s [].

(** [a[i]] for an index that is in range. *)
Definition pick (a : list string) (i : Z) : string :=
  nth (Z.to_nat i) a "".

(** The three random columns as blocks of the stream that starts at state
    [s]: [n] bounded draws for the patients, then [n] normal draws for the
    glucose, then [n] bounded draws for the meals; the last component is the
    state after the third block. *)
Definition stream_columns {R : RandomState} (s : rk_state) (n : nat)
    : list string * list float2 * list string * rk_state :=
  let d1 := draws (rk_interval 2) n s in
  let d2 := draws rk_gauss n (snd d1) in
  let d3 := draws (rk_interval 2) n (snd d2) in
  (map (pick patients) (fst d1),
   map (fun g => around2 (110 + 25 * g)%Q) (fst d2),
   map (pick meals) (fst d3),
   snd d3).

(** A bounded check: [p] holds on the [fuel] integers from [n] on. *)
Fixpoint all_from (fuel : nat) (n : Z) (p : Z -> bool) : bool :=
  match fuel with
  | O => true
  | S fuel' => p n && all_from fuel' (n + 1) p
  end.

(** The formatted fields of row [i], and its line in the file. *)
Definition record_fields (ts : list Datetime.datetime) (pid : list string)
    (glucose : list float2) (meal : list string) (i : nat) : list string :=
  [nth i (format_datetimes ts) ""; nth i pid "";
   nth i (map float_str glucose) ""; nth i meal ""].

Definition record_line (ts : list Datetime.datetime) (pid : list string)
    (glucose : list float2) (meal : list string) (i : nat) : string :=
  join "," (record_fields ts pid glucose meal i).

Definition header_line : string :=
  "timestamp,patient_id,glucose_level,meal_context".

(** * Proofs *)

Import Datetime.


(** ** The calendar *)



Ltac bool_cases :=
  repeat match goal with
  | |- context [?a =? ?b] => destruct (Z.eqb_spec a b)
  | |- context [?a <? ?b] => destruct (Z.ltb_spec a b)
  | |- context [?a <=? ?b] => destruct (Z.leb_spec a b)
  | H : context [?a =? ?b] |- _ => destruct (Z.eqb_spec a b)
  | H : context [?a <? ?b] |- _ => destruct (Z.ltb_spec a b)
  | H : context [?a <=? ?b] |- _ => destruct (Z.leb_spec a b)
  end.

Lemma is_leap_spec (y : Z) :
  is_leap y = true <-> (y mod 4 = 0 /\ (y mod 100 <> 0 \/ y mod 400 = 0)).
Proof.
  unfold is_leap. bool_cases; cbn; intuition (try discriminate; try lia).
Qed.

Lemma days_before_year_succ (y : Z) :
  days_before_year (y + 1)
  = days_before_year y + 365 + (if is_leap y then 1 else 0).
Proof.
  unfold days_before_year, is_leap.
  replace (y + 1 - 1) with y by lia.
  bool_cases; cbn [negb orb andb]; Z.div_mod_to_equations; lia.
Qed.

Ltac eval_tables :=
  repeat match goal with
  | |- context [table ?t ?k] =>
      let v := eval vm_compute in (table t k) in change (table t k) with v
  | |- context [(?a =? ?b) && ?c] =>
      let v := eval vm_compute in ((a =? b) && c) in
      change ((a =? b) && c) with v
  | |- context [(?a <? ?b) && ?c] =>
      let v := eval vm_compute in ((a <? b) && c) in
      change ((a <? b) && c) with v
  end; cbv iota.

Lemma month_cases (m : Z) :
  1 <= m <= 12 ->
  m = 1 \/ m = 2 \/ m = 3 \/ m = 4 \/ m = 5 \/ m = 6 \/ m = 7 \/ m = 8
  \/ m = 9 \/ m = 10 \/ m = 11 \/ m = 12.
Proof. lia. Qed.

Lemma month_day_spec (leapyear : bool) (n : Z) :
  0 <= n <= 364 ->
  let '(m, d) := month_day leapyear n in
  1 <= m <= 12
  /\ 1 <= d <= (if (m =? 2) && leapyear then 29 else table DAYS_IN_MONTH m)
  /\ table DAYS_BEFORE_MONTH m
     + (if (2 <? m) && leapyear then 1 else 0) + d = n + 1.
Proof.
  intros Hn. unfold month_day.
  rewrite Z.shiftr_div_pow2 by lia. change (2 ^ 5) with 32.
  assert (Hm : 1 <= (n + 50) / 32 <= 12) by (Z.div_mod_to_equations; lia).
  assert (Hq : 32 * ((n + 50) / 32) <= n + 50 < 32 * ((n + 50) / 32) + 32)
    by (Z.div_mod_to_equations; lia).
  destruct (month_cases _ Hm) as [E|[E|[E|[E|[E|[E|[E|[E|[E|[E|[E|E]]]]]]]]]]];
    rewrite E in *; cbv zeta; destruct leapyear; eval_tables;
    repeat match goal with
    | |- context [?a <? ?b] => destruct (Z.ltb_spec a b)
    end; eval_tables; cbn [andb]; lia.
Qed.

Lemma ord2ymd_month_day (ordinal : Z) :
  let n := (ordinal - 1) mod DI400Y in
  let n100 := n / DI100Y in
  let n4 := n mod DI100Y / DI4Y in
  let n1 := n mod DI100Y mod DI4Y / 365 in
  let year := (ordinal - 1) / DI400Y * 400 + 1 + n100 * 100 + n4 * 4 + n1 in
  ord2ymd ordinal =
  if (n1 =? 4) || (n100 =? 4) then (year - 1, 12, 31)
  else
    let '(m, d) :=
      month_day ((n1 =? 3) && (negb (n4 =? 24) || (n100 =? 3)))
                (n mod DI100Y mod DI4Y mod 365) in
    (year, m, d).
Proof.
  cbv zeta. unfold ord2ymd, month_day. cbv zeta.
  destruct (_ || _); [reflexivity|].
  destruct (_ <? _); reflexivity.
Qed.

Lemma ord2ymd_spec (ordinal : Z) :
  1 <= ordinal ->
  let '(y, m, d) := ord2ymd ordinal in
  valid_date y m d /\ ymd2ord y m d = ordinal.
Proof.
  intros Hn. rewrite ord2ymd_month_day. cbv zeta.
  unfold DI400Y, DI100Y, DI4Y.
  set (n0 := ordinal - 1).
  set (q400 := n0 / 146097). set (r400 := n0 mod 146097).
  set (q100 := r400 / 36524). set (r100 := r400 mod 36524).
  set (q4 := r100 / 1461). set (r4 := r100 mod 1461).
  set (q1 := r4 / 365). set (r1 := r4 mod 365).
  assert (B400 : n0 = 146097 * q400 + r400 /\ 0 <= r400 < 146097 /\ 0 <= q400)
    by (subst q400 r400; Z.div_mod_to_equations; lia).
  assert (B100 : r400 = 36524 * q100 + r100 /\ 0 <= r100 < 36524)
    by (subst q100 r100; Z.div_mod_to_equations; lia).
  assert (B4 : r100 = 1461 * q4 + r4 /\ 0 <= r4 < 1461)
    by (subst q4 r4; Z.div_mod_to_equations; lia).
  assert (B1 : r4 = 365 * q1 + r1 /\ 0 <= r1 < 365)
    by (subst q1 r1; Z.div_mod_to_equations; lia).
  assert (Bq : 0 <= q100 <= 4 /\ 0 <= q4 <= 24 /\ 0 <= q1 <= 4) by lia.
  clearbody q400 r400 q100 r100 q4 r4 q1 r1.
  set (y := q400 * 400 + 1 + q100 * 100 + q4 * 4 + q1).
  destruct ((q1 =? 4) || (q100 =? 4)) eqn:Hex.
  - (* the last day of a leap year *)
    assert (Hy : is_leap (y - 1) = true).
    { apply is_leap_spec. subst y. apply orb_true_iff in Hex.
      rewrite !Z.eqb_eq in Hex. Z.div_mod_to_equations. lia. }
    unfold valid_date, ymd2ord, days_in_month, days_before_month.
    rewrite Hy. cbn [andb]. eval_tables. cbv iota.
    unfold days_before_year. subst y.
    apply orb_true_iff in Hex. rewrite !Z.eqb_eq in Hex.
    Z.div_mod_to_equations. lia.
  - apply orb_false_iff in Hex. rewrite !Z.eqb_neq in Hex.
    set (leap := (q1 =? 3) && (negb (q4 =? 24) || (q100 =? 3))).
    assert (Hleap : is_leap y = leap).
    { subst leap y. unfold is_leap. bool_cases; cbn; try reflexivity;
        exfalso; Z.div_mod_to_equations; lia. }
    pose proof (month_day_spec leap r1 ltac:(lia)) as Hmd.
    destruct (month_day leap r1) as [m d].
    destruct Hmd as (Hm & Hd & Hsum).
    unfold valid_date, ymd2ord, days_in_month, days_before_month.
    rewrite Hleap.
    assert (Hdby : days_before_year y = n0 - r1).
    { unfold days_before_year. subst y. Z.div_mod_to_equations. lia. }
    rewrite Hdby. subst n0. repeat split; try lia.
Qed.

Lemma days_before_year_mono (y1 y2 : Z) :
  y1 <= y2 -> days_before_year y1 <= days_before_year y2.
Proof.
  intros H. unfold days_before_year. Z.div_mod_to_equations. lia.
Qed.

Lemma day_of_year_bound (y m d : Z) :
  valid_date y m d ->
  1 <= days_before_month y m + d <= 365 + (if is_leap y then 1 else 0).
Proof.
  intros (_ & Hm & Hd). revert Hd. unfold days_before_month, days_in_month.
  destruct (month_cases _ Hm) as [E|[E|[E|[E|[E|[E|[E|[E|[E|[E|[E|E]]]]]]]]]]];
    rewrite E; destruct (is_leap y); eval_tables; cbn [andb]; lia.
Qed.

Lemma days_before_month_next (y m1 m2 : Z) :
  1 <= m1 -> m1 < m2 -> m2 <= 12 ->
  days_before_month y m1 + days_in_month y m1 <= days_before_month y m2.
Proof.
  intros H1 H12 H2. unfold days_before_month, days_in_month.
  destruct (month_cases m1 ltac:(lia))
    as [E|[E|[E|[E|[E|[E|[E|[E|[E|[E|[E|E]]]]]]]]]]];
  destruct (month_cases m2 ltac:(lia))
    as [F|[F|[F|[F|[F|[F|[F|[F|[F|[F|[F|F]]]]]]]]]]];
  rewrite E, F in *; try lia;
  destruct (is_leap y); eval_tables; cbn [andb]; lia.
Qed.

Lemma cmp_date_Lt (y1 m1 d1 y2 m2 d2 : Z) :
  cmp [y1; m1; d1] [y2; m2; d2] = Lt <->
  y1 < y2 \/ (y1 = y2 /\ (m1 < m2 \/ (m1 = m2 /\ d1 < d2))).
Proof.
  cbn [cmp].
  destruct (Z.compare_spec y1 y2); destruct (Z.compare_spec m1 m2);
    destruct (Z.compare_spec d1 d2);
    split; intros; try discriminate; try reflexivity; lia.
Qed.

Lemma ymd2ord_lt (y1 m1 d1 y2 m2 d2 : Z) :
  valid_date y1 m1 d1 -> valid_date y2 m2 d2 ->
  cmp [y1; m1; d1] [y2; m2; d2] = Lt ->
  ymd2ord y1 m1 d1 < ymd2ord y2 m2 d2.
Proof.
  intros V1 V2 Hc. apply cmp_date_Lt in Hc.
  pose proof (day_of_year_bound _ _ _ V1) as B1.
  pose proof (day_of_year_bound _ _ _ V2) as B2.
  unfold ymd2ord.
  destruct Hc as [Hy | (-> & [Hm | (-> & Hd)])].
  - pose proof (days_before_year_succ y1).
    pose proof (days_before_year_mono (y1 + 1) y2 ltac:(lia)). lia.
  - destruct V1 as (_ & ? & ?), V2 as (_ & ? & ?).
    pose proof (days_before_month_next y2 m1 m2 ltac:(lia) Hm ltac:(lia)). lia.
  - lia.
Qed.

(** Later ordinals are later dates. *)
Lemma ord2ymd_lt (a b : Z) :
  1 <= a -> a < b ->
  let '(y1, m1, d1) := ord2ymd a in
  let '(y2, m2, d2) := ord2ymd b in
  cmp [y1; m1; d1] [y2; m2; d2] = Lt.
Proof.
  intros Ha Hab.
  pose proof (ord2ymd_spec a Ha) as Sa.
  pose proof (ord2ymd_spec b ltac:(lia)) as Sb.
  destruct (ord2ymd a) as [[y1 m1] d1], (ord2ymd b) as [[y2 m2] d2].
  destruct Sa as (Va & Ea), Sb as (Vb & Eb).
  destruct (cmp [y1; m1; d1] [y2; m2; d2]) eqn:Hc; [| reflexivity |].
  - exfalso. cbn [cmp] in Hc.
    destruct (Z.compare_spec y1 y2); try discriminate.
    destruct (Z.compare_spec m1 m2); try discriminate.
    destruct (Z.compare_spec d1 d2); try discriminate.
    subst. lia.
  - exfalso.
    assert (Hc' : cmp [y2; m2; d2] [y1; m1; d1] = Lt).
    { apply cmp_date_Lt. cbn [cmp] in Hc.
      destruct (Z.compare_spec y1 y2); try discriminate; try lia.
      destruct (Z.compare_spec m1 m2); try discriminate; try lia.
      destruct (Z.compare_spec d1 d2); try discriminate; lia. }
    pose proof (ymd2ord_lt _ _ _ _ _ _ Vb Va Hc'). lia.
Qed.

Lemma ord2ymd_year_range (ordinal : Z) :
  1 <= ordinal <= MAXORDINAL -> 1 <= fst (fst (ord2ymd ordinal)) <= MAXYEAR.
Proof.
  intros H. pose proof (ord2ymd_spec ordinal ltac:(lia)) as S.
  destruct (ord2ymd ordinal) as [[y m] d]. cbn [fst].
  destruct S as (V & E). split; [apply V|].
  pose proof (day_of_year_bound _ _ _ V) as B. unfold ymd2ord in E.
  destruct (Z.le_gt_cases y MAXYEAR) as [|Hgt]; [assumption|exfalso].
  pose proof (days_before_year_mono (MAXYEAR + 1) y ltac:(lia)) as M.
  change (days_before_year (MAXYEAR + 1)) with MAXORDINAL in M. lia.
Qed.

(** A date is the date of its ordinal. *)
Lemma ord2ymd_ymd2ord (y m d : Z) :
  valid_date y m d -> ord2ymd (ymd2ord y m d) = (y, m, d).
Proof.
  intros V.
  assert (H1 : 1 <= ymd2ord y m d).
  { pose proof (day_of_year_bound _ _ _ V). unfold ymd2ord.
    pose proof (days_before_year_mono 1 y ltac:(apply V)) as M.
    change (days_before_year 1) with 0 in M. lia. }
  pose proof (ord2ymd_spec _ H1) as S.
  destruct (ord2ymd (ymd2ord y m d)) as [[y' m'] d'].
  destruct S as (V' & E).
  destruct (cmp [y'; m'; d'] [y; m; d]) eqn:Hc.
  - cbn [cmp] in Hc.
    destruct (Z.compare_spec y' y); try discriminate.
    destruct (Z.compare_spec m' m); try discriminate.
    destruct (Z.compare_spec d' d); try discriminate.
    subst. reflexivity.
  - pose proof (ymd2ord_lt _ _ _ _ _ _ V' V Hc). lia.
  - assert (Hc' : cmp [y; m; d] [y'; m'; d'] = Lt).
    { apply cmp_date_Lt. cbn [cmp] in Hc.
      destruct (Z.compare_spec y' y); try discriminate; try lia.
      destruct (Z.compare_spec m' m); try discriminate; try lia.
      destruct (Z.compare_spec d' d); try discriminate; lia. }
    pose proof (ymd2ord_lt _ _ _ _ _ _ V V' Hc'). lia.
Qed.

(** ** Timestamps *)

Lemma start_date_new : datetime_new 2026 1 1 = Ok start_date.
Proof. reflexivity. Qed.

Lemma timestamp_at_ok (i : Z) :
  0 <= i < max_records ->
  timestamp_at start_date i = Ok (timestamp_value i).
Proof.
  unfold max_records, timestamp_value. intros Hi.
  unfold timestamp_at, timedelta_new. cbv zeta.
  replace (0 + 0 * 7 + (0 + 30 * i * 60 + 0 * 3600 + (0 + 0 * 1000) / 1000000)
           / 86400) with (i / 48) by (Z.div_mod_to_equations; lia).
  replace ((0 + 30 * i * 60 + 0 * 3600 + (0 + 0 * 1000) / 1000000) mod 86400)
    with (1800 * (i mod 48)) by (Z.div_mod_to_equations; lia).
  change ((0 + 0 * 1000) mod 1000000) with 0.
  destruct (Z.gtb_spec (Z.abs (i / 48)) 999999999) as [Hbig|_];
    [Z.div_mod_to_equations; lia|].
  cbn [bind_result]. unfold datetime_add.
  change (toordinal start_date) with 739617.
  cbn [second minute hour microsecond start_date].
  change (timedelta_new 739617 0 0 0 0 0 0) with (Ok (mk_timedelta 739617 0 0)).
  cbn [bind_result]. unfold timedelta_add, timedelta_new.
  cbn [td_days td_seconds td_microseconds]. cbv zeta.
  replace (739617 + i / 48 + 0 * 7
           + (0 + 1800 * (i mod 48) + 0 * 60 + 0 * 3600
              + (0 + 0 + 0 * 1000) / 1000000) / 86400)
    with (739617 + i / 48) by (Z.div_mod_to_equations; lia).
  replace ((0 + 1800 * (i mod 48) + 0 * 60 + 0 * 3600
            + (0 + 0 + 0 * 1000) / 1000000) mod 86400)
    with (1800 * (i mod 48)) by (Z.div_mod_to_equations; lia).
  change ((0 + 0 + 0 * 1000) mod 1000000) with 0.
  destruct (Z.gtb_spec (Z.abs (739617 + i / 48)) 999999999) as [Hbig|_];
    [Z.div_mod_to_equations; lia|].
  cbn [bind_result td_days td_seconds td_microseconds].
  destruct (Z.ltb_spec 0 (739617 + i / 48));
    [|Z.div_mod_to_equations; lia].
  destruct (Z.leb_spec (739617 + i / 48) MAXORDINAL);
    [|unfold MAXORDINAL in *; Z.div_mod_to_equations; lia].
  cbn [andb]. destruct (ord2ymd (739617 + i / 48)) as [[y m] d].
  f_equal. f_equal; Z.div_mod_to_equations; lia.
Qed.

Lemma timestamp_at_overflow (i : Z) :
  max_records <= i -> timestamp_at start_date i = Raise OverflowError.
Proof.
  unfold max_records. intros Hi.
  unfold timestamp_at, timedelta_new. cbv zeta.
  replace (0 + 0 * 7 + (0 + 30 * i * 60 + 0 * 3600 + (0 + 0 * 1000) / 1000000)
           / 86400) with (i / 48) by (Z.div_mod_to_equations; lia).
  replace ((0 + 30 * i * 60 + 0 * 3600 + (0 + 0 * 1000) / 1000000) mod 86400)
    with (1800 * (i mod 48)) by (Z.div_mod_to_equations; lia).
  change ((0 + 0 * 1000) mod 1000000) with 0.
  destruct (Z.gtb_spec (Z.abs (i / 48)) 999999999) as [Hbig|Hsmall];
    [reflexivity|].
  cbn [bind_result]. unfold datetime_add.
  change (toordinal start_date) with 739617.
  cbn [second minute hour microsecond start_date].
  change (timedelta_new 739617 0 0 0 0 0 0) with (Ok (mk_timedelta 739617 0 0)).
  cbn [bind_result]. unfold timedelta_add, timedelta_new.
  cbn [td_days td_seconds td_microseconds]. cbv zeta.
  replace (739617 + i / 48 + 0 * 7
           + (0 + 1800 * (i mod 48) + 0 * 60 + 0 * 3600
              + (0 + 0 + 0 * 1000) / 1000000) / 86400)
    with (739617 + i / 48) by (Z.div_mod_to_equations; lia).
  destruct (Z.gtb_spec (Z.abs (739617 + i / 48)) 999999999) as [Hbig|_];
    [reflexivity|].
  cbn [bind_result td_days td_seconds td_microseconds].
  destruct (Z.leb_spec (739617 + i / 48) MAXORDINAL) as [Hle|_];
    [unfold MAXORDINAL in *; Z.div_mod_to_equations; lia|].
  rewrite andb_false_r. reflexivity.
Qed.

Lemma timestamp_value_valid (i : Z) :
  0 <= i < max_records -> valid_datetime (timestamp_value i).
Proof.
  unfold max_records. intros Hi. unfold timestamp_value.
  assert (Ho : 1 <= 739617 + i / 48 <= MAXORDINAL)
    by (unfold MAXORDINAL; Z.div_mod_to_equations; lia).
  pose proof (ord2ymd_spec _ (proj1 Ho)) as S.
  pose proof (ord2ymd_year_range _ Ho) as Y.
  destruct (ord2ymd (739617 + i / 48)) as [[y m] d]. cbn [fst] in Y.
  destruct S as (V & _). unfold valid_datetime.
  cbn [year month day hour minute second microsecond].
  repeat split; try apply V; try lia; Z.div_mod_to_equations; lia.
Qed.

(** Row [i] lies [30 * i] minutes after the start date. *)
Lemma timestamp_value_instant (i : Z) :
  0 <= i ->
  instant (timestamp_value i) = instant start_date + 30 * i * minute_us.
Proof.
  intros Hi. unfold timestamp_value.
  pose proof (ord2ymd_spec (739617 + i / 48)
                ltac:(Z.div_mod_to_equations; lia)) as S.
  destruct (ord2ymd (739617 + i / 48)) as [[y m] d].
  destruct S as (_ & E). unfold instant, toordinal, minute_us.
  cbn [year month day hour minute second microsecond]. rewrite E.
  change (ymd2ord (year start_date) (month start_date) (day start_date))
    with 739617.
  cbn [hour minute second microsecond start_date].
  Z.div_mod_to_equations. lia.
Qed.

Lemma cmp_app_Lt (a b c d : list Z) :
  cmp a b = Lt -> List.length a = List.length b -> cmp (a ++ c) (b ++ d) = Lt.
Proof.
  revert b. induction a as [|x a IH]; intros [|y b] H L;
    cbn in *; try discriminate.
  destruct (x ?= y); try discriminate; auto.
Qed.

(** Later rows carry later timestamps, in the order of [datetime]. *)
Lemma timestamp_value_lt (i j : Z) :
  0 <= i -> i < j ->
  datetime_lt (timestamp_value i) (timestamp_value j) = true.
Proof.
  intros Hi Hij. unfold datetime_lt, timestamp_value.
  destruct (Z.eq_dec (i / 48) (j / 48)) as [E|N].
  - rewrite E. destruct (ord2ymd (739617 + j / 48)) as [[y m] d].
    unfold fields. cbn [year month day hour minute second microsecond cmp].
    rewrite !Z.compare_refl.
    destruct (Z.compare_spec (i mod 48 / 2) (j mod 48 / 2)) as [H|H|H];
      [|reflexivity|exfalso; Z.div_mod_to_equations; lia].
    destruct (Z.compare_spec (30 * (i mod 2)) (30 * (j mod 2)));
      [exfalso|reflexivity|exfalso]; Z.div_mod_to_equations; lia.
  - pose proof (ord2ymd_lt (739617 + i / 48) (739617 + j / 48)
                  ltac:(Z.div_mod_to_equations; lia)
                  ltac:(Z.div_mod_to_equations; lia)) as L.
    destruct (ord2ymd (739617 + i / 48)) as [[y1 m1] d1].
    destruct (ord2ymd (739617 + j / 48)) as [[y2 m2] d2].
    unfold fields. cbn [year month day hour minute second microsecond].
    pose proof (cmp_app_Lt [y1; m1; d1] [y2; m2; d2]
                  [i mod 48 / 2; 30 * (i mod 2); 0; 0]
                  [j mod 48 / 2; 30 * (j mod 2); 0; 0] L eq_refl) as C.
    cbn [app] in C. rewrite C. reflexivity.
Qed.

(** ** Comprehensions, draws and the monad *)

Lemma comprehension_ok {A B : Type} (f : A -> result B) (g : A -> B)
    (l : list A) :
  (forall a, In a l -> f a = Ok (g a)) -> comprehension f l = Ok (map g l).
Proof.
  induction l as [|a l IH]; intros H; cbn; [reflexivity|].
  rewrite (H a (or_introl eq_refl)). cbn.
  rewrite IH by (intros; apply H; right; assumption). reflexivity.
Qed.

Lemma comprehension_raise {A B : Type} (f : A -> result B) (g : A -> B)
    (l1 l2 : list A) (a : A) (e : exn) :
  (forall x, In x l1 -> f x = Ok (g x)) -> f a = Raise e ->
  comprehension f (l1 ++ a :: l2) = Raise e.
Proof.
  induction l1 as [|x l1 IH]; intros H Ha; cbn.
  - rewrite Ha. reflexivity.
  - rewrite (H x (or_introl eq_refl)). cbn.
    rewrite IH by (try assumption; intros; apply H; right; assumption).
    reflexivity.
Qed.

Lemma range_length (n : Z) : List.length (range n) = Z.to_nat n.
Proof. unfold range. rewrite length_map, length_seq. reflexivity. Qed.

Lemma in_range (n i : Z) : In i (range n) <-> 0 <= i < n.
Proof.
  unfold range. rewrite in_map_iff. split.
  - intros (k & <- & Hk). apply in_seq in Hk. lia.
  - intros H. exists (Z.to_nat i). split; [lia|]. apply in_seq. lia.
Qed.

Lemma range_nth (n : Z) (i : nat) :
  (i < Z.to_nat n)%nat -> nth_error (range n) i = Some (Z.of_nat i).
Proof.
  intros H. unfold range. rewrite nth_error_map.
  rewrite nth_error_nth' with (d := O) by (rewrite length_seq; assumption).
  rewrite seq_nth by assumption. reflexivity.
Qed.

Lemma range_split (n k : Z) :
  0 <= k < n ->
  exists rest, range n = range k ++ k :: rest.
Proof.
  intros H. unfold range.
  replace (Z.to_nat n) with (Z.to_nat k + S (Z.to_nat (n - k - 1)))%nat by lia.
  rewrite seq_app, map_app. cbn [seq map Nat.add].
  rewrite Z2Nat.id by lia. eauto.
Qed.

Section ProcessFacts.

Context {R : RandomState}.

Lemma draws_length {A : Type} (f : rk_state -> A * rk_state) (n : nat)
    (s : rk_state) :
  List.length (fst (draws f n s)) = n.
Proof.
  revert s. induction n as [|n IH]; intros s; cbn; [reflexivity|].
  destruct (f s) as [a s1]. specialize (IH s1).
  destruct (draws f n s1) as [l s2]. cbn in *. congruence.
Qed.

Lemma draws_Forall {A : Type} (P : A -> Prop) (f : rk_state -> A * rk_state)
    (n : nat) (s : rk_state) :
  (forall s', P (fst (f s'))) -> Forall P (fst (draws f n s)).
Proof.
  intros H. revert s. induction n as [|n IH]; intros s; cbn; [constructor|].
  pose proof (H s) as Hs. destruct (f s) as [a s1]. specialize (IH s1).
  destruct (draws f n s1) as [l s2]. cbn in *. constructor; assumption.
Qed.

Lemma random_only_ret {A : Type} (a : A) : random_only (ret a).
Proof. exists (fun s => (Ok a, s)). intros [s t]. reflexivity. Qed.

Lemma random_only_raise {A : Type} (e : exn) : random_only (@raise R A e).
Proof. exists (fun s => (Raise e, s)). intros [s t]. reflexivity. Qed.

Lemma random_only_lift {A : Type} (r : result A) : random_only (lift r).
Proof. exists (fun s => (r, s)). intros [s t]. reflexivity. Qed.

Lemma random_only_sample {A : Type} (f : rk_state -> A * rk_state) (n : nat) :
  random_only (sample f n).
Proof.
  exists (fun s => (Ok (fst (draws f n s)), snd (draws f n s))).
  intros w. unfold sample. destruct (draws f n (random_state w)). reflexivity.
Qed.

Lemma random_only_bind {A B : Type} (m : M A) (k : A -> M B) :
  random_only m -> (forall a, random_only (k a)) -> random_only (bind m k).
Proof.
  intros (f & Hf) Hk.
  assert (Hk' : forall a, exists g : rk_state -> result B * rk_state,
             forall s t, k a (mk_World s t)
                         = (fst (g s), mk_World (snd (g s)) t)).
  { intros a. destruct (Hk a) as (g & Hg). exists g. intros s t.
    apply (Hg (mk_World s t)). }
  clear Hk.
  exists (fun s =>
            match fst (f s) with
            | Ok a =>
                let p := k a (mk_World (snd (f s)) []) in
                (fst p, random_state (snd p))
            | Raise e => (Raise e, snd (f s))
            end).
  intros w. unfold bind. rewrite Hf.
  destruct (fst (f (random_state w))) as [a|e]; [|reflexivity].
  destruct (Hk' a) as (g & Hg). rewrite !Hg. reflexivity.
Qed.

End ProcessFacts.

Section NumpyFacts.

Context {R : RandomState}.

Lemma take_ok {A : Type} (a : list A) (idx : list Z) :
  Forall (fun i => 0 <= i < Z.of_nat (List.length a)) idx ->
  exists l,
    take a idx = Ok l
    /\ List.length l = List.length idx
    /\ Forall (fun x => In x a) l.
Proof.
  unfold take. induction 1 as [|i idx Hi _ (l & E & L & F)]; cbn.
  - exists []. repeat split. constructor.
  - destruct (Z.ltb_spec i 0); [lia|].
    destruct (nth_error a (Z.to_nat i)) as [x|] eqn:N.
    + rewrite E. cbn. exists (x :: l). repeat split.
      * cbn. congruence.
      * constructor; [eapply nth_error_In; eassumption | assumption].
    + apply nth_error_None in N. lia.
Qed.

Lemma np_random_randint_ok (low high size : Z) (w : World) :
  low < high -> 0 <= size ->
  exists l s,
    np_random_randint low high size w = (Ok l, mk_World s (trace w))
    /\ List.length l = Z.to_nat size
    /\ Forall (fun i => low <= i < high) l.
Proof.
  intros Hlh Hsize. unfold np_random_randint.
  destruct (Z.leb_spec high low); [lia|].
  destruct (Z.ltb_spec size 0); [lia|].
  unfold bind, sample, ret.
  assert (Hmax : 0 <= high - low - 1) by lia.
  pose proof (draws_length (rk_interval (high - low - 1)) (Z.to_nat size)
                (random_state w)) as L.
  pose proof (draws_Forall (fun i => 0 <= i <= high - low - 1)
                (rk_interval (high - low - 1)) (Z.to_nat size)
                (random_state w)
                (fun s => rk_interval_range (high - low - 1) s Hmax)) as F.
  destruct (draws _ _ _) as [l s]. cbn [fst] in L, F.
  exists (map (Z.add low) l), s. repeat split.
  - rewrite length_map. assumption.
  - apply Forall_map. eapply Forall_impl; [|exact F]. cbn. intros; lia.
Qed.

Lemma np_random_randint_negative (low high size : Z) (w : World) :
  size < 0 -> np_random_randint low high size w = (Raise ValueError, w).
Proof.
  intros H. unfold np_random_randint.
  destruct (high <=? low); [reflexivity|].
  destruct (Z.ltb_spec size 0); [reflexivity|lia].
Qed.

Lemma np_random_choice_ok (a : list string) (size : Z) (w : World) :
  a <> [] -> 0 <= size ->
  exists l s,
    np_random_choice a size w = (Ok l, mk_World s (trace w))
    /\ List.length l = Z.to_nat size
    /\ Forall (fun x => In x a) l.
Proof.
  intros Ha Hsize. unfold np_random_choice.
  assert (Hpop : 0 < Z.of_nat (List.length a))
    by (destruct a; [congruence | cbn; lia]).
  destruct (Z.eqb_spec (Z.of_nat (List.length a)) 0); [lia|].
  cbn [andb]. unfold bind.
  destruct (np_random_randint_ok 0 _ size w Hpop Hsize) as (idx & s & -> & L & F).
  destruct (take_ok a idx F) as (l & E & L' & F').
  exists l, s. unfold lift. rewrite E. repeat split; [congruence | assumption].
Qed.

Lemma np_random_choice_negative (a : list string) (size : Z) (w : World) :
  size < 0 -> np_random_choice a size w = (Raise ValueError, w).
Proof.
  intros H. unfold np_random_choice.
  destruct (Z.eqb_spec (Z.of_nat (List.length a)) 0) as [E|E].
  - destruct (Z.eqb_spec size 0); [lia|]. reflexivity.
  - cbn [andb]. unfold bind.
    rewrite np_random_randint_negative by assumption. reflexivity.
Qed.

Lemma np_random_normal_ok (loc scale : Q) (size : Z) (w : World) :
  (0 <= scale)%Q -> 0 <= size ->
  exists l s,
    np_random_normal loc scale size w = (Ok l, mk_World s (trace w))
    /\ List.length l = Z.to_nat size
    /\ Forall (fun x => (loc - 13 * scale <= x /\ x <= loc + 13 * scale)%Q) l.
Proof.
  intros Hscale Hsize. unfold np_random_normal.
  apply Qle_bool_iff in Hscale. rewrite Hscale. cbn [negb].
  destruct (Z.ltb_spec size 0); [lia|].
  unfold bind, sample, ret.
  pose proof (draws_length rk_gauss (Z.to_nat size) (random_state w)) as L.
  pose proof (draws_Forall (fun g => (- (13) <= g /\ g <= 13)%Q)
                rk_gauss (Z.to_nat size) (random_state w)
                rk_gauss_range) as F.
  destruct (draws _ _ _) as [l s]. cbn [fst] in L, F.
  exists (map (fun g => (loc + scale * g)%Q) l), s. repeat split.
  - rewrite length_map. assumption.
  - apply Forall_map. eapply Forall_impl; [|exact F]. cbn.
    intros g (Hlo & Hhi). apply Qle_bool_iff in Hscale. split.
    + setoid_replace (loc - 13 * scale)%Q with (loc + - (13) * scale)%Q by ring.
      setoid_replace (loc + scale * g)%Q with (loc + g * scale)%Q by ring.
      apply Qplus_le_r. apply Qmult_le_compat_r; assumption.
    + setoid_replace (loc + scale * g)%Q with (loc + g * scale)%Q by ring.
      apply Qplus_le_r. apply Qmult_le_compat_r; assumption.
Qed.

End NumpyFacts.

(** ** Text *)

Lemma all_chars_app (p : ascii -> bool) (a b : string) :
  all_chars p (a ++ b) = all_chars p a && all_chars p b.
Proof.
  induction a as [|c a IH]; cbn; [reflexivity|].
  rewrite IH, andb_assoc. reflexivity.
Qed.

Lemma all_chars_impl (p q : ascii -> bool) (s : string) :
  (forall c, p c = true -> q c = true) ->
  all_chars p s = true -> all_chars q s = true.
Proof.
  intros H. induction s as [|c s IH]; cbn; [reflexivity|].
  rewrite !andb_true_iff. intros (Hc & Hs). auto.
Qed.

Lemma all_chars_replicate (p : ascii -> bool) (n : nat) (c : ascii) :
  p c = true -> all_chars p (replicate n c) = true.
Proof. intros H. induction n; cbn; [reflexivity|]. rewrite H. assumption. Qed.

Lemma contains_char_all_chars (c : ascii) (s : string) :
  contains_char c s = negb (all_chars (fun a => negb (Ascii.eqb c a)) s).
Proof.
  induction s as [|a s IH]; cbn; [reflexivity|].
  rewrite IH. destruct (Ascii.eqb c a); reflexivity.
Qed.

Lemma plain_not_contains (c : ascii) (s : string) :
  is_special c = true -> plain s = true -> contains_char c s = false.
Proof.
  intros Hc Hs. rewrite contains_char_all_chars. apply negb_false_iff.
  revert Hs. apply all_chars_impl. intros a Ha.
  destruct (Ascii.eqb_spec c a) as [<-|]; [|reflexivity].
  rewrite Hc in Ha. discriminate.
Qed.

Lemma plain_needs_no_quoting (s : string) :
  plain s = true -> needs_quoting s = false.
Proof.
  intros H. unfold needs_quoting.
  rewrite !plain_not_contains by (assumption || reflexivity). reflexivity.
Qed.

Lemma needs_quoting_plain (s : string) : needs_quoting s = negb (plain s).
Proof.
  unfold needs_quoting, plain. induction s as [|a s IH]; [reflexivity|].
  cbn [contains_char all_chars]. unfold is_special at 1.
  apply (f_equal negb) in IH. rewrite negb_involutive in IH. rewrite <- IH.
  rewrite (Ascii.eqb_sym a comma), (Ascii.eqb_sym a dquote),
    (Ascii.eqb_sym a CR), (Ascii.eqb_sym a LF).
  destruct (Ascii.eqb comma a), (Ascii.eqb dquote a), (Ascii.eqb CR a),
    (Ascii.eqb LF a), (contains_char comma s), (contains_char dquote s),
    (contains_char CR s), (contains_char LF s); reflexivity.
Qed.

Lemma digit_not_special (c : ascii) : is_digit c = true -> is_special c = false.
Proof.
  unfold is_digit, is_special. intros H.
  apply andb_true_iff in H. destruct H as (H1 & H2).
  apply Nat.leb_le in H1, H2.
  repeat match goal with
  | |- context [Ascii.eqb c ?k] =>
      destruct (Ascii.eqb_spec c k) as [->|_]; [cbn in H1, H2; lia|]
  end.
  reflexivity.
Qed.

Lemma digits_plain (s : string) : all_chars is_digit s = true -> plain s = true.
Proof.
  apply all_chars_impl. intros c H. rewrite digit_not_special by assumption.
  reflexivity.
Qed.

Lemma string_of_uint_digits (d : Decimal.uint) :
  all_chars is_digit (NilEmpty.string_of_uint d) = true.
Proof. induction d; cbn; auto. Qed.

Lemma str_nonneg_digits (z : Z) : all_chars is_digit (str_nonneg z) = true.
Proof.
  unfold str_nonneg, NilZero.string_of_uint.
  destruct (N.to_uint (Z.to_N z)); try apply string_of_uint_digits.
  reflexivity.
Qed.

Lemma zfill_digits (w : nat) (z : Z) : all_chars is_digit (zfill w z) = true.
Proof.
  unfold zfill. rewrite all_chars_app, all_chars_replicate by reflexivity.
  apply str_nonneg_digits.
Qed.

Lemma append_nil_r (s : string) : (s ++ "")%string = s.
Proof. induction s as [|c s IH]; cbn; [|rewrite IH]; reflexivity. Qed.

Lemma append_assoc (a b c : string) :
  ((a ++ b) ++ c)%string = (a ++ (b ++ c))%string.
Proof. induction a as [|x a IH]; cbn; [|rewrite IH]; reflexivity. Qed.

Lemma concat_cons (x : string) (xs : list string) :
  String.concat "" (x :: xs) = (x ++ String.concat "" xs)%string.
Proof. destruct xs; cbn; [rewrite append_nil_r|]; reflexivity. Qed.

Lemma count_char_app (c : ascii) (a b : string) :
  count_char c (a ++ b) = (count_char c a + count_char c b)%nat.
Proof. induction a as [|x a IH]; cbn; [|rewrite IH]; lia. Qed.

Lemma count_char_absent (c : ascii) (s : string) :
  contains_char c s = false -> count_char c s = O.
Proof.
  induction s as [|a s IH]; cbn; [reflexivity|].
  destruct (Ascii.eqb c a); cbn; [discriminate|exact IH].
Qed.

Lemma contains_char_app (c : ascii) (a b : string) :
  contains_char c (a ++ b) = contains_char c a || contains_char c b.
Proof.
  induction a as [|x a IH]; cbn; [reflexivity|].
  rewrite IH, orb_assoc. reflexivity.
Qed.

Lemma split_nonempty (c : ascii) (s : string) : split c s <> [].
Proof.
  induction s as [|a s IH]; cbn; [discriminate|].
  destruct (Ascii.eqb a c); [discriminate|].
  destruct (split c s); discriminate.
Qed.

Lemma split_absent (c : ascii) (s : string) :
  contains_char c s = false -> split c s = [s].
Proof.
  induction s as [|a s IH]; cbn; [reflexivity|].
  rewrite Ascii.eqb_sym. destruct (Ascii.eqb a c); cbn; [discriminate|].
  intros H. rewrite IH by assumption. reflexivity.
Qed.

Lemma split_app (c : ascii) (a b : string) :
  contains_char c a = false ->
  split c (a ++ String c b) = a :: split c b.
Proof.
  induction a as [|x a IH]; cbn.
  - rewrite Ascii.eqb_refl. reflexivity.
  - rewrite (Ascii.eqb_sym c x). destruct (Ascii.eqb x c); cbn; [discriminate|].
    intros H. rewrite IH by assumption. reflexivity.
Qed.

(** Splitting at the separator undoes [join], for pieces that do not contain
    it. *)
Lemma split_join (c : ascii) (fs : list string) :
  fs <> [] ->
  Forall (fun f => contains_char c f = false) fs ->
  split c (join (String c "") fs) = fs.
Proof.
  intros Hne H. induction H as [|f fs Hf Hfs IH]; [congruence|].
  destruct fs as [|g fs].
  - cbn. apply split_absent. assumption.
  - change (join (String c "") (f :: g :: fs))
      with (f ++ String c (join (String c "") (g :: fs)))%string.
    rewrite split_app by assumption. rewrite IH by discriminate. reflexivity.
Qed.

Lemma count_char_join (c : ascii) (fs : list string) :
  Forall (fun f => contains_char c f = false) fs ->
  count_char c (join (String c "") fs) = (List.length fs - 1)%nat.
Proof.
  induction 1 as [|f fs Hf Hfs IH]; [reflexivity|].
  destruct fs as [|g fs].
  - cbn. rewrite count_char_absent by assumption. reflexivity.
  - change (join (String c "") (f :: g :: fs))
      with (f ++ String c (join (String c "") (g :: fs)))%string.
    rewrite count_char_app. cbn [count_char]. rewrite IH.
    rewrite count_char_absent by assumption.
    rewrite Ascii.eqb_refl. cbn [List.length]. lia.
Qed.

Lemma contains_char_join (c sep : ascii) (fs : list string) :
  Ascii.eqb c sep = false ->
  Forall (fun f => contains_char c f = false) fs ->
  contains_char c (join (String sep "") fs) = false.
Proof.
  intros Hsep. induction 1 as [|f fs Hf Hfs IH]; [reflexivity|].
  destruct fs as [|g fs]; [exact Hf|].
  change (join (String sep "") (f :: g :: fs))
    with (f ++ String sep (join (String sep "") (g :: fs)))%string.
  rewrite contains_char_app. cbn [contains_char]. rewrite Hf, IH, Hsep.
  reflexivity.
Qed.

Lemma strip_cr_app_cr (s : string) : strip_cr (s ++ String CR "") = s.
Proof.
  induction s as [|a s IH]; [reflexivity|].
  cbn [append strip_cr]. rewrite IH.
  destruct s; reflexivity.
Qed.

Lemma strip_cr_absent (s : string) :
  contains_char CR s = false -> strip_cr s = s.
Proof.
  induction s as [|a s IH]; [reflexivity|].
  cbn [contains_char strip_cr]. intros H. apply orb_false_iff in H.
  destruct H as (Ha & Hs). destruct s as [|b s].
  - rewrite Ascii.eqb_sym, Ha. reflexivity.
  - rewrite IH by assumption. reflexivity.
Qed.

Lemma linesep_line_end (os : os_name) (l : string) :
  (l ++ linesep os)%string = ((l ++ line_end os) ++ String LF "")%string.
Proof. destruct os; cbn; rewrite ?append_nil_r, ?append_assoc; reflexivity. Qed.

Lemma split_lines (os : os_name) (ls : list string) :
  Forall (fun l => contains_char LF l = false) ls ->
  split LF (String.concat "" (map (fun l => (l ++ linesep os)%string) ls))
  = map (fun l => (l ++ line_end os)%string) ls ++ [""].
Proof.
  induction 1 as [|l ls Hl Hls IH]; [reflexivity|].
  cbn [map]. rewrite concat_cons, linesep_line_end, append_assoc.
  cbn [append]. rewrite split_app.
  - rewrite IH. reflexivity.
  - rewrite contains_char_app, Hl. destruct os; reflexivity.
Qed.

Lemma drop_final_empty_app (ls : list string) :
  drop_final_empty (ls ++ [""]) = ls.
Proof.
  induction ls as [|l ls IH]; [reflexivity|].
  cbn [app drop_final_empty]. rewrite IH.
  destruct ls; reflexivity.
Qed.

(** Reading back the lines of a text written line by line. *)
Lemma file_lines_written (os : os_name) (ls : list string) :
  Forall (fun l => contains_char LF l = false /\ contains_char CR l = false) ls ->
  file_lines (String.concat "" (map (fun l => (l ++ linesep os)%string) ls))
  = ls.
Proof.
  intros H. unfold file_lines. rewrite split_lines.
  - rewrite drop_final_empty_app, map_map.
    rewrite <- (map_id ls) at 2. apply map_ext_in. intros l Hl.
    rewrite Forall_forall in H. destruct (H l Hl) as (_ & Hcr).
    destruct os; cbn [line_end].
    + rewrite append_nil_r. apply strip_cr_absent. assumption.
    + apply strip_cr_app_cr.
  - eapply Forall_impl; [|exact H]. cbn. tauto.
Qed.

Lemma line_count_written (os : os_name) (ls : list string) :
  Forall (fun l => contains_char LF l = false) ls ->
  line_count (String.concat "" (map (fun l => (l ++ linesep os)%string) ls))
  = List.length ls.
Proof.
  unfold line_count. induction 1 as [|l ls Hl Hls IH]; [reflexivity|].
  cbn [map List.length]. rewrite concat_cons, !count_char_app, IH.
  rewrite count_char_absent by assumption. destruct os; cbn; lia.
Qed.

(** ** The fields of the file never need quoting *)

Lemma plain_app (a b : string) :
  plain (a ++ b) = plain a && plain b.
Proof. apply all_chars_app. Qed.

Ltac plain_digits :=
  repeat rewrite (digits_plain (str_nonneg _)) by apply str_nonneg_digits;
  repeat rewrite (digits_plain (zfill _ _)) by apply zfill_digits.

Lemma date_str_plain (t : datetime) : plain (date_str t) = true.
Proof. unfold date_str. rewrite !plain_app. plain_digits. reflexivity. Qed.

Lemma time_str_plain (t : datetime) : plain (time_str t) = true.
Proof.
  unfold time_str. rewrite !plain_app. plain_digits. reflexivity.
Qed.

Lemma subsecond_str_plain (col : list datetime) (t : datetime) :
  plain (subsecond_str col t) = true.
Proof.
  unfold subsecond_str. cbv zeta.
  destruct (forallb _ col); [reflexivity|].
  destruct (forallb _ col);
    match goal with
    | |- plain (String ?c ?s) = true =>
        change (plain (String c s)) with (negb (is_special c) && plain s)
    end;
    plain_digits; reflexivity.
Qed.

Lemma format_datetimes_plain (col : list datetime) :
  Forall (fun f => plain f = true) (format_datetimes col).
Proof.
  unfold format_datetimes. destruct (forallb is_date_only col);
    apply Forall_map, Forall_forall; intros t _.
  - apply date_str_plain.
  - rewrite !plain_app, date_str_plain, time_str_plain, subsecond_str_plain.
    reflexivity.
Qed.

Lemma format_datetimes_length (col : list datetime) :
  List.length (format_datetimes col) = List.length col.
Proof.
  unfold format_datetimes. destruct (forallb is_date_only col);
    apply length_map.
Qed.

Lemma float_str_plain (d : float2) : plain (float_str d) = true.
Proof.
  unfold float_str. cbv zeta. rewrite !plain_app.
  rewrite (digits_plain (str_nonneg _)) by apply str_nonneg_digits.
  assert (Hf : plain (if hundredths d mod 10 =? 0
                      then str_nonneg (hundredths d / 10 mod 10)
                      else zfill 2 (hundredths d mod 100)) = true)
    by (destruct (_ =? _); apply digits_plain;
        [apply str_nonneg_digits | apply zfill_digits]).
  rewrite Hf. destruct (negative d); reflexivity.
Qed.

Lemma patients_plain (s : string) : In s patients -> plain s = true.
Proof. cbn. intros [<-|[<-|[<-|[]]]]; reflexivity. Qed.

Lemma meals_plain (s : string) : In s meals -> plain s = true.
Proof. cbn. intros [<-|[<-|[<-|[]]]]; reflexivity. Qed.

Lemma nth_plain (i : nat) (l : list string) :
  Forall (fun f => plain f = true) l -> plain (nth i l "") = true.
Proof.
  intros H. destruct (nth_in_or_default i l "") as [Hin| ->]; [|reflexivity].
  rewrite Forall_forall in H. auto.
Qed.

Lemma record_fields_plain (ts : list datetime) (pid : list string)
    (glucose : list float2) (meal : list string) (i : nat) :
  Forall (fun f => plain f = true) pid ->
  Forall (fun f => plain f = true) meal ->
  Forall (fun f => plain f = true) (record_fields ts pid glucose meal i).
Proof.
  intros Hp Hm. unfold record_fields. repeat constructor.
  - apply nth_plain, format_datetimes_plain.
  - apply nth_plain, Hp.
  - apply nth_plain, Forall_map, Forall_forall. intros; apply float_str_plain.
  - apply nth_plain, Hm.
Qed.

Lemma map_csv_field_plain (fs : list string) :
  Forall (fun f => plain f = true) fs -> map csv_field fs = fs.
Proof.
  induction 1 as [|f fs Hf _ IH]; [reflexivity|].
  cbn [map]. rewrite IH. unfold csv_field.
  rewrite plain_needs_no_quoting by assumption. reflexivity.
Qed.

(** The text of the frame: the header line and one line per row, none of
    them quoted. *)
Lemma csv_text_frame (os : os_name) (ts : list datetime) (pid : list string)
    (glucose : list float2) (meal : list string) :
  Forall (fun f => plain f = true) pid ->
  Forall (fun f => plain f = true) meal ->
  csv_text os false (frame ts pid glucose meal)
  = String.concat ""
      (map (fun l => (l ++ linesep os)%string)
           (header_line
            :: map (record_line ts pid glucose meal)
                   (seq 0 (List.length ts)))).
Proof.
  intros Hp Hm. unfold csv_text, frame. cbv zeta.
  cbn [map fst snd app nrows column_length format_column].
  f_equal. f_equal. rewrite !map_map. apply map_ext. intros i.
  f_equal. unfold record_line.
  change (row_fields
            [format_datetimes ts; pid; map float_str glucose; meal] i)
    with (record_fields ts pid glucose meal i).
  pose proof (record_fields_plain ts pid glucose meal i Hp Hm) as H.
  unfold csv_row.
  rewrite map_csv_field_plain by assumption.
  unfold record_fields.
  destruct (nth i (format_datetimes ts) ""); reflexivity.
Qed.

Lemma record_line_facts (ts : list datetime) (pid : list string)
    (glucose : list float2) (meal : list string) (i : nat) :
  Forall (fun f => plain f = true) pid ->
  Forall (fun f => plain f = true) meal ->
  let line := record_line ts pid glucose meal i in
  split comma line = record_fields ts pid glucose meal i
  /\ count_char comma line = 3%nat
  /\ contains_char dquote line = false
  /\ contains_char LF line = false
  /\ contains_char CR line = false.
Proof.
  intros Hp Hm. cbv zeta.
  pose proof (record_fields_plain ts pid glucose meal i Hp Hm) as H.
  assert (Hc : forall c, is_special c = true ->
                 Forall (fun f => contains_char c f = false)
                        (record_fields ts pid glucose meal i)).
  { intros c Hc. eapply Forall_impl; [|exact H]. cbn. intros f Hf.
    apply plain_not_contains; assumption. }
  unfold record_line. change "," with (String comma "").
  repeat split.
  - apply split_join; [discriminate | apply Hc; reflexivity].
  - rewrite count_char_join by (apply Hc; reflexivity). reflexivity.
  - apply contains_char_join; [reflexivity | apply Hc; reflexivity].
  - apply contains_char_join; [reflexivity | apply Hc; reflexivity].
  - apply contains_char_join; [reflexivity | apply Hc; reflexivity].
Qed.

(** ** The script *)

Section ScriptFacts.

Context {R : RandomState}.
Variable os : os_name.

Lemma timestamps_ok (n : Z) :
  n <= max_records ->
  comprehension (timestamp_at start_date) (range n)
  = Ok (map timestamp_value (range n)).
Proof.
  intros Hn. apply comprehension_ok. intros i Hi. apply in_range in Hi.
  apply timestamp_at_ok. lia.
Qed.

Lemma timestamps_overflow (n : Z) :
  max_records < n ->
  comprehension (timestamp_at start_date) (range n) = Raise OverflowError.
Proof.
  intros Hn.
  destruct (range_split n max_records) as (rest & ->);
    [unfold max_records in *; lia|].
  apply comprehension_raise with (g := timestamp_value).
  - intros i Hi. apply in_range in Hi. apply timestamp_at_ok. lia.
  - apply timestamp_at_overflow. lia.
Qed.

Lemma build_data_ok (n : Z) (w : World) :
  0 <= n <= max_records ->
  exists pid glucose meal s,
    build_data start_date n w
    = (Ok (frame (map timestamp_value (range n)) pid glucose meal),
       mk_World s (trace w))
    /\ List.length pid = Z.to_nat n
    /\ List.length glucose = Z.to_nat n
    /\ List.length meal = Z.to_nat n
    /\ Forall (fun x => In x patients) pid
    /\ Forall (fun x => In x meals) meal
    /\ Forall (fun g => exists x, g = around2 x
                                  /\ (- (215) <= x /\ x <= 435)%Q) glucose.
Proof.
  intros Hn. unfold build_data, bind, lift.
  rewrite timestamps_ok by lia.
  destruct (np_random_choice_ok patients n w ltac:(discriminate) ltac:(lia))
    as (pid & s1 & -> & Lp & Fp).
  destruct (np_random_normal_ok 110 25 n (mk_World s1 (trace w))
              ltac:(discriminate) ltac:(lia))
    as (xs & s2 & -> & Lx & Fx). cbn [trace] in *.
  destruct (np_random_choice_ok meals n (mk_World s2 (trace w))
              ltac:(discriminate) ltac:(lia))
    as (meal & s3 & -> & Lm & Fm). cbn [trace] in *.
  exists pid, (map around2 xs), meal, s3. unfold ret, frame.
  repeat split; try assumption.
  - rewrite length_map. assumption.
  - apply Forall_map. eapply Forall_impl; [|exact Fx]. cbn.
    intros x (Hlo & Hhi). exists x. repeat split.
    + eapply Qle_trans; [|exact Hlo]. discriminate.
    + eapply Qle_trans; [exact Hhi|]. discriminate.
Qed.

Lemma build_data_negative (n : Z) (w : World) :
  n < 0 -> build_data start_date n w = (Raise ValueError, w).
Proof.
  intros Hn. unfold build_data, bind, lift.
  rewrite timestamps_ok by (unfold max_records; lia).
  rewrite np_random_choice_negative by assumption. reflexivity.
Qed.

Lemma build_data_overflow (n : Z) (w : World) :
  max_records < n -> build_data start_date n w = (Raise OverflowError, w).
Proof.
  intros Hn. unfold build_data, bind, lift.
  rewrite timestamps_overflow by assumption. reflexivity.
Qed.

Lemma DataFrame_new_frame (ts : list datetime) (pid : list string)
    (glucose : list float2) (meal : list string) :
  List.length pid = List.length ts ->
  List.length glucose = List.length ts ->
  List.length meal = List.length ts ->
  DataFrame_new (frame ts pid glucose meal) = Ok (frame ts pid glucose meal).
Proof.
  intros Hp Hg Hm. unfold DataFrame_new, frame, same_length.
  cbn [forallb snd column_length]. rewrite Hp, Hg, Hm, Nat.eqb_refl.
  reflexivity.
Qed.

Lemma script_ok (seed n : Z) (w : World) :
  0 <= seed < 2 ^ 32 -> 0 <= n <= max_records ->
  exists pid glucose meal,
    generates os seed n w (map timestamp_value (range n)) pid glucose meal
    /\ List.length pid = Z.to_nat n
    /\ List.length glucose = Z.to_nat n
    /\ List.length meal = Z.to_nat n
    /\ Forall (fun x => In x patients) pid
    /\ Forall (fun x => In x meals) meal
    /\ Forall (fun g => exists x, g = around2 x
                                  /\ (- (215) <= x /\ x <= 435)%Q) glucose.
Proof.
  intros Hseed Hn.
  destruct (build_data_ok n (mk_World (rk_seed seed) (trace w)) Hn)
    as (pid & glucose & meal & s & E & Lp & Lg & Lm & F).
  cbn [trace] in E.
  exists pid, glucose, meal. split; [|tauto].
  exists s. split; [exact E|].
  unfold script, bind, np_random_seed.
  destruct (Z.leb_spec 0 seed); [|lia].
  destruct (Z.ltb_spec seed (2 ^ 32)); [|lia].
  cbn [andb]. unfold lift. rewrite start_date_new, E.
  rewrite DataFrame_new_frame
    by (rewrite length_map, range_length; assumption).
  unfold to_csv, print, emit. cbn [trace random_state].
  rewrite <- app_assoc. reflexivity.
Qed.

Lemma script_bad_seed (seed n : Z) (w : World) :
  ~ 0 <= seed < 2 ^ 32 -> script os seed n w = (Raise ValueError, w).
Proof.
  intros H. unfold script, bind, np_random_seed.
  destruct (Z.leb_spec 0 seed), (Z.ltb_spec seed (2 ^ 32));
    try reflexivity; lia.
Qed.

Lemma script_negative (seed n : Z) (w : World) :
  0 <= seed < 2 ^ 32 -> n < 0 ->
  script os seed n w
  = (Raise ValueError, mk_World (rk_seed seed) (trace w)).
Proof.
  intros Hseed Hn. unfold script, bind, np_random_seed.
  destruct (Z.leb_spec 0 seed); [|lia].
  destruct (Z.ltb_spec seed (2 ^ 32)); [|lia].
  cbn [andb]. unfold lift. rewrite start_date_new.
  rewrite build_data_negative by assumption. reflexivity.
Qed.

Lemma script_overflow (seed n : Z) (w : World) :
  0 <= seed < 2 ^ 32 -> max_records < n ->
  script os seed n w
  = (Raise OverflowError, mk_World (rk_seed seed) (trace w)).
Proof.
  intros Hseed Hn. unfold script, bind, np_random_seed.
  destruct (Z.leb_spec 0 seed); [|lia].
  destruct (Z.ltb_spec seed (2 ^ 32)); [|lia].
  cbn [andb]. unfold lift. rewrite start_date_new.
  rewrite build_data_overflow by assumption. reflexivity.
Qed.

End ScriptFacts.

(** The last write to a path decides what the file holds. *)
Lemma file_content_app (path : string) (tr tr' : list event) :
  file_content path (tr ++ tr')
  = match file_content path tr' with
    | Some text => Some text
    | None => file_content path tr
    end.
Proof.
  induction tr as [|e tr IH]; cbn.
  - destruct (file_content path tr'); reflexivity.
  - rewrite IH. destruct (file_content path tr'); reflexivity.
Qed.

Lemma file_content_last (tr : list event) (text out : string) :
  file_content output_path (tr ++ [Written output_path text; Printed out])
  = Some text.
Proof. rewrite file_content_app. reflexivity. Qed.

Section Determinism.

Context {R : RandomState}.
Variable os : os_name.

Lemma random_only_randint (low high size : Z) :
  random_only (np_random_randint low high size).
Proof.
  unfold np_random_randint.
  destruct (high <=? low); [apply random_only_raise|].
  destruct (size <? 0); [apply random_only_raise|].
  apply random_only_bind; [apply random_only_sample|].
  intros l. apply random_only_ret.
Qed.

Lemma random_only_choice (a : list string) (size : Z) :
  random_only (np_random_choice a size).
Proof.
  unfold np_random_choice.
  destruct (_ && _); [apply random_only_raise|].
  destruct (_ =? _); [apply random_only_ret|].
  apply random_only_bind; [apply random_only_randint|].
  intros idx. apply random_only_lift.
Qed.

Lemma random_only_normal (loc scale : Q) (size : Z) :
  random_only (np_random_normal loc scale size).
Proof.
  unfold np_random_normal.
  destruct (negb _); [apply random_only_raise|].
  destruct (size <? 0); [apply random_only_raise|].
  apply random_only_bind; [apply random_only_sample|].
  intros l. apply random_only_ret.
Qed.

(** Building the columns touches nothing but the random state. *)
Lemma random_only_build_data (start : datetime) (n : Z) :
  random_only (build_data start n).
Proof.
  unfold build_data.
  apply random_only_bind; [apply random_only_lift|]. intros ts.
  apply random_only_bind; [apply random_only_choice|]. intros pid.
  apply random_only_bind; [apply random_only_normal|]. intros glucose.
  apply random_only_bind; [apply random_only_choice|]. intros meal.
  apply random_only_ret.
Qed.

(** The outcome of the script and the events it appends are functions of
    the seed and of [n_records] alone. *)
Lemma script_shape (seed n : Z) :
  exists (outcome : result unit) (events : list event),
    (forall w,
       fst (script os seed n w) = outcome
       /\ trace (snd (script os seed n w)) = trace w ++ events)
    /\ (match outcome with
        | Ok _ =>
            exists text,
              events = [Written output_path text;
                        Printed (notice ++ String LF "")]
        | Raise _ => events = []
        end).
Proof.
  unfold script, bind, np_random_seed, lift.
  destruct ((0 <=? seed) && (seed <? 2 ^ 32)).
  2:{ exists (Raise ValueError), []. split; [|reflexivity].
      intros w. cbn. rewrite app_nil_r. split; reflexivity. }
  rewrite start_date_new.
  destruct (random_only_build_data start_date n) as (f & Hf).
  destruct (f (rk_seed seed)) as [r s] eqn:Ef.
  destruct r as [data|e].
  2:{ exists (Raise e), []. split; [|reflexivity].
      intros w. rewrite Hf. cbn [random_state trace]. rewrite Ef. cbn.
      rewrite app_nil_r. split; reflexivity. }
  destruct (DataFrame_new data) as [df|e] eqn:Edf.
  2:{ exists (Raise e), []. split; [|reflexivity].
      intros w. rewrite Hf. cbn [random_state trace]. rewrite Ef. cbn.
      rewrite Edf. cbn. rewrite app_nil_r. split; reflexivity. }
  exists (Ok tt),
    [Written output_path (csv_text os false df);
     Printed (notice ++ String LF "")].
  split; [|eauto].
  intros w. rewrite Hf. cbn [random_state trace]. rewrite Ef. cbn.
  rewrite Edf. cbn. rewrite <- app_assoc. split; reflexivity.
Qed.

End Determinism.

Lemma toordinal_timestamp_value (i : Z) :
  0 <= i -> toordinal (timestamp_value i) = 739617 + i / 48.
Proof.
  intros Hi. unfold timestamp_value, toordinal.
  pose proof (ord2ymd_spec (739617 + i / 48)
                ltac:(Z.div_mod_to_equations; lia)) as S.
  destruct (ord2ymd (739617 + i / 48)) as [[y m] d]. apply S.
Qed.

(** Consecutive rows are half an hour apart. *)
Lemma timestamp_value_step (i : Z) :
  0 <= i ->
  datetime_sub (timestamp_value (i + 1)) (timestamp_value i)
  = timedelta_new 0 0 0 0 30 0 0.
Proof.
  intros Hi. unfold datetime_sub.
  rewrite !toordinal_timestamp_value by lia.
  unfold timestamp_value.
  destruct (ord2ymd (739617 + (i + 1) / 48)) as [[y1 m1] d1].
  destruct (ord2ymd (739617 + i / 48)) as [[y2 m2] d2].
  cbn [hour minute second microsecond].
  change (timedelta_new 0 0 0 0 30 0 0) with (Ok (mk_timedelta 0 1800 0)).
  unfold timedelta_new. cbv zeta.
  change ((0 - 0 + 0 * 1000) / 1000000) with 0.
  change ((0 - 0 + 0 * 1000) mod 1000000) with 0.
  set (s := 0 + 30 * ((i + 1) mod 2) * 60 + (i + 1) mod 48 / 2 * 3600
            - (0 + 30 * (i mod 2) * 60 + i mod 48 / 2 * 3600)
            + 0 * 60 + 0 * 3600 + 0).
  set (d := 739617 + (i + 1) / 48 - (739617 + i / 48) + 0 * 7).
  assert (Hs : 86400 * d + s = 1800)
    by (subst s d; Z.div_mod_to_equations; lia).
  assert (Hd : d = 0 \/ d = 1) by (subst d; Z.div_mod_to_equations; lia).
  replace (d + s / 86400) with 0 by (Z.div_mod_to_equations; lia).
  replace (s mod 86400) with 1800 by (Z.div_mod_to_equations; lia).
  reflexivity.
Qed.

Lemma timestamps_nth (n : Z) (i : nat) :
  (i < Z.to_nat n)%nat ->
  nth_error (map timestamp_value (range n)) i
  = Some (timestamp_value (Z.of_nat i)).
Proof.
  intros H. rewrite nth_error_map, range_nth by assumption. reflexivity.
Qed.

Lemma timestamps_nth_inv (n : Z) (i : nat) (t : datetime) :
  nth_error (map timestamp_value (range n)) i = Some t ->
  (i < Z.to_nat n)%nat /\ t = timestamp_value (Z.of_nat i).
Proof.
  intros H.
  assert (Hi : (i < Z.to_nat n)%nat).
  { rewrite <- (range_length n), <- (length_map timestamp_value).
    apply nth_error_Some. congruence. }
  rewrite timestamps_nth in H by assumption. split; congruence.
Qed.

(** ** The file of a generated frame *)

Lemma labels_plain (labels l : list string) :
  (forall s, In s labels -> plain s = true) ->
  Forall (fun x => In x labels) l -> Forall (fun f => plain f = true) l.
Proof. intros H. apply Forall_impl. exact H. Qed.

Lemma record_lines_clean (ts : list datetime) (pid : list string)
    (glucose : list float2) (meal : list string) (c : ascii) (l : list nat) :
  Forall (fun f => plain f = true) pid ->
  Forall (fun f => plain f = true) meal ->
  c = LF \/ c = CR \/ c = dquote ->
  Forall (fun line => contains_char c line = false)
         (map (record_line ts pid glucose meal) l).
Proof.
  intros Hp Hm Hc. apply Forall_map, Forall_forall. intros i _.
  destruct (record_line_facts ts pid glucose meal i Hp Hm)
    as (_ & _ & Hq & Hlf & Hcr).
  destruct Hc as [->|[->| ->]]; assumption.
Qed.

(** The lines of the file: the header, then the rows in order. *)
Lemma file_of_frame (os : os_name) (ts : list datetime) (pid : list string)
    (glucose : list float2) (meal : list string) :
  Forall (fun f => plain f = true) pid ->
  Forall (fun f => plain f = true) meal ->
  let text := csv_text os false (frame ts pid glucose meal) in
  file_lines text
  = header_line
    :: map (record_line ts pid glucose meal) (seq 0 (List.length ts))
  /\ line_count text = S (List.length ts)
  /\ contains_char dquote text = false.
Proof.
  intros Hp Hm. cbv zeta. rewrite csv_text_frame by assumption.
  pose proof (record_lines_clean ts pid glucose meal LF
                (seq 0 (List.length ts)) Hp Hm ltac:(tauto)) as Hlf.
  pose proof (record_lines_clean ts pid glucose meal CR
                (seq 0 (List.length ts)) Hp Hm ltac:(tauto)) as Hcr.
  pose proof (record_lines_clean ts pid glucose meal dquote
                (seq 0 (List.length ts)) Hp Hm ltac:(tauto)) as Hq.
  split; [|split].
  - apply file_lines_written. constructor; [split; reflexivity|].
    rewrite Forall_forall in *. intros l Hl. split; auto.
  - rewrite line_count_written.
    + cbn [List.length]. rewrite length_map, length_seq. reflexivity.
    + constructor; [reflexivity | assumption].
  - assert (Hall : Forall (fun l => contains_char dquote l = false)
                     (header_line
                      :: map (record_line ts pid glucose meal)
                           (seq 0 (List.length ts))))
      by (constructor; [reflexivity | assumption]).
    induction Hall as [|l ls Hl _ IH]; [reflexivity|].
    cbn [map]. rewrite concat_cons, !contains_char_app, Hl, IH.
    destruct os; reflexivity.
Qed.

Lemma data_line_inv (ts : list datetime) (pid : list string)
    (glucose : list float2) (meal : list string) (line : string) :
  In line (map (record_line ts pid glucose meal) (seq 0 (List.length ts))) ->
  exists i, (i < List.length ts)%nat
            /\ line = record_line ts pid glucose meal i.
Proof.
  intros H. apply in_map_iff in H. destruct H as (i & <- & Hi).
  apply in_seq in Hi. exists i. split; [lia | reflexivity].
Qed.

Lemma nth_In_labels (labels l : list string) (i : nat) :
  Forall (fun x => In x labels) l -> (i < List.length l)%nat ->
  In (nth i l "") labels.
Proof.
  intros H Hi. rewrite Forall_forall in H. apply H, nth_In. assumption.
Qed.

Lemma stdout_app (tr tr' : list event) :
  stdout (tr ++ tr') = (stdout tr ++ stdout tr')%string.
Proof.
  induction tr as [|[p t|t] tr IH]; cbn; [reflexivity|exact IH|].
  rewrite IH, append_assoc. reflexivity.
Qed.

(** ** Rounded values and their text *)

Lemma forallb_range (p : Z -> bool) (n : Z) :
  forallb p (range n) = true -> forall i, 0 <= i < n -> p i = true.
Proof.
  intros H i Hi. rewrite forallb_forall in H. apply H, in_range. assumption.
Qed.

Lemma one_digit_length (v : Z) :
  0 <= v < 10 -> String.length (str_nonneg v) = 1%nat.
Proof.
  intros H. apply Nat.eqb_eq.
  apply (forallb_range
           (fun v => Nat.eqb (String.length (str_nonneg v)) 1) 10);
    [reflexivity | assumption].
Qed.

Lemma two_digits_length (v : Z) :
  0 <= v < 100 -> String.length (zfill 2 v) = 2%nat.
Proof.
  intros H. apply Nat.eqb_eq.
  apply (forallb_range
           (fun v => Nat.eqb (String.length (zfill 2 v)) 2) 100);
    [reflexivity | assumption].
Qed.

Lemma fraction_digits_app (a b : string) :
  contains_char "." a = false ->
  fraction_digits (a ++ String "." b) = Some (String.length b).
Proof.
  induction a as [|c a IH]; cbn [append fraction_digits contains_char].
  - intros _. rewrite Ascii.eqb_refl. reflexivity.
  - intros H. apply orb_false_iff in H. destruct H as (Hc & Ha).
    rewrite Ascii.eqb_sym, Hc. apply IH. assumption.
Qed.

Lemma digits_no_point (s : string) :
  all_chars is_digit s = true -> contains_char "." s = false.
Proof.
  intros H. rewrite contains_char_all_chars. apply negb_false_iff.
  revert H. apply all_chars_impl. intros c Hc.
  destruct (Ascii.eqb_spec "."%char c) as [<-|]; [|reflexivity].
  vm_compute in Hc. discriminate.
Qed.

(** The text of a rounded value has one fraction digit when the hundredths
    end in 0, and two otherwise. *)
Lemma float_str_fraction_digits (d : float2) :
  fraction_digits (float_str d)
  = Some (if hundredths d mod 10 =? 0 then 1%nat else 2%nat).
Proof.
  unfold float_str. cbv zeta.
  change ("." ++ ?f)%string with (String "." f).
  rewrite <- append_assoc, fraction_digits_app.
  - destruct (Z.eqb_spec (hundredths d mod 10) 0).
    + rewrite one_digit_length by (Z.div_mod_to_equations; lia). reflexivity.
    + rewrite two_digits_length by (Z.div_mod_to_equations; lia). reflexivity.
  - rewrite contains_char_app, (digits_no_point (str_nonneg _))
      by apply str_nonneg_digits.
    destruct (negative d); reflexivity.
Qed.

(** ** The properties of the specification *)

(** C1. Two runs with the same seed and the same [n_records] end in the same
    way and append the same events, whatever random state and whatever files
    and output they start from: both raise the same exception and write
    nothing, or both write the same bytes to [glucose_data.csv] and print the
    notice. *)
Theorem C1_runs_are_reproducible :
  forall (R : RandomState) (os : os_name) (seed n_records : Z)
         (w1 w2 : World),
  exists (outcome : result unit) (events : list event),
    fst (script os seed n_records w1) = outcome
    /\ fst (script os seed n_records w2) = outcome
    /\ trace (snd (script os seed n_records w1)) = trace w1 ++ events
    /\ trace (snd (script os seed n_records w2)) = trace w2 ++ events
    /\ (match outcome with
        | Ok _ =>
            exists text,
              events = [Written output_path text;
                        Printed (notice ++ String LF "")]
              /\ file_content output_path
                   (trace (snd (script os seed n_records w1))) = Some text
              /\ file_content output_path
                   (trace (snd (script os seed n_records w2))) = Some text
        | Raise _ => events = []
        end).
Proof.
  intros R os seed n w1 w2.
  destruct (script_shape os seed n) as (outcome & events & H & Hev).
  exists outcome, events.
  destruct (H w1) as (O1 & T1), (H w2) as (O2 & T2).
  repeat split; try assumption.
  destruct outcome as [u|e]; [|assumption].
  destruct Hev as (text & ->). exists text. split; [reflexivity|].
  rewrite T1, T2. split; apply file_content_last.
Qed.

(** C2. Row [i] carries the value of [start_date + timedelta(minutes=30*i)],
    a valid datetime exactly [30 * i] minutes after 2026-01-01T00:00:00; the
    column is strictly increasing in the order of [datetime], consecutive
    rows differ by [timedelta(minutes=30)], and rows 0 and 1 are
    2026-01-01T00:00:00 and 2026-01-01T00:30:00. *)
Theorem C2_timestamps_every_30_minutes :
  forall (R : RandomState) (os : os_name) (seed n_records : Z) (w : World),
    0 <= seed < 2 ^ 32 -> 0 <= n_records <= max_records ->
    exists ts pid glucose meal,
      generates os seed n_records w ts pid glucose meal
      /\ List.length ts = Z.to_nat n_records
      /\ (forall i, 0 <= i < n_records ->
            exists t,
              nth_error ts (Z.to_nat i) = Some t
              /\ timestamp_at start_date i = Ok t
              /\ valid_datetime t
              /\ instant t = instant start_date + 30 * i * minute_us)
      /\ (forall i j t u,
            (i < j)%nat -> nth_error ts i = Some t -> nth_error ts j = Some u ->
            datetime_lt t u = true)
      /\ (forall i t u,
            nth_error ts i = Some t -> nth_error ts (S i) = Some u ->
            datetime_sub u t = timedelta_new 0 0 0 0 30 0 0)
      /\ (0 < n_records -> nth_error ts 0 = Some (mk_datetime 2026 1 1 0 0 0 0))
      /\ (1 < n_records ->
          nth_error ts 1 = Some (mk_datetime 2026 1 1 0 30 0 0)).
Proof.
  intros R os seed n w Hseed Hn.
  destruct (script_ok os seed n w Hseed Hn) as (pid & glucose & meal & G & _).
  exists (map timestamp_value (range n)), pid, glucose, meal.
  split; [exact G|]. split; [rewrite length_map; apply range_length|].
  split; [|split; [|split; [|split]]].
  - intros i Hi. exists (timestamp_value i).
    rewrite timestamps_nth by lia. rewrite Z2Nat.id by lia.
    split; [reflexivity|].
    split; [apply timestamp_at_ok; lia|].
    split; [apply timestamp_value_valid; lia|].
    apply timestamp_value_instant. lia.
  - intros i j t u Hij Ht Hu.
    apply timestamps_nth_inv in Ht, Hu.
    destruct Ht as (_ & ->), Hu as (_ & ->).
    apply timestamp_value_lt; lia.
  - intros i t u Ht Hu.
    apply timestamps_nth_inv in Ht, Hu.
    destruct Ht as (_ & ->), Hu as (_ & ->).
    rewrite Nat2Z.inj_succ. apply timestamp_value_step. lia.
  - intros H. rewrite timestamps_nth by lia. reflexivity.
  - intros H. rewrite timestamps_nth by lia. reflexivity.
Qed.

(** C3. In every generated row the patient is one of P001, P002, P003 and
    the meal context one of Fasting, Post-prandial, Before sleep: in the
    columns of the frame, and in the second and fourth field of every data
    line of the file. *)
Theorem C3_labels_from_fixed_sets :
  forall (R : RandomState) (os : os_name) (seed n_records : Z) (w : World),
    0 <= seed < 2 ^ 32 -> 0 <= n_records <= max_records ->
    exists ts pid glucose meal,
      generates os seed n_records w ts pid glucose meal
      /\ List.length pid = Z.to_nat n_records
      /\ List.length meal = Z.to_nat n_records
      /\ Forall (fun p => In p ["P001"; "P002"; "P003"]) pid
      /\ Forall (fun m => In m ["Fasting"; "Post-prandial"; "Before sleep"])
                meal
      /\ (forall line,
            In line (tl (file_lines (file_text os ts pid glucose meal))) ->
            exists f1 f2 f3 f4,
              split comma line = [f1; f2; f3; f4]
              /\ In f2 ["P001"; "P002"; "P003"]
              /\ In f4 ["Fasting"; "Post-prandial"; "Before sleep"]).
Proof.
  intros R os seed n w Hseed Hn.
  destruct (script_ok os seed n w Hseed Hn)
    as (pid & glucose & meal & G & Lp & Lg & Lm & Fp & Fm & _).
  exists (map timestamp_value (range n)), pid, glucose, meal.
  repeat (split; [assumption|]).
  pose proof (labels_plain _ _ patients_plain Fp) as Pp.
  pose proof (labels_plain _ _ meals_plain Fm) as Pm.
  intros line Hline. unfold file_text in Hline.
  destruct (file_of_frame os (map timestamp_value (range n)) pid glucose meal
              Pp Pm) as (E & _).
  rewrite E in Hline. cbn [tl] in Hline.
  apply data_line_inv in Hline. destruct Hline as (i & Hi & ->).
  rewrite length_map, range_length in Hi.
  destruct (record_line_facts (map timestamp_value (range n)) pid glucose meal
              i Pp Pm) as (S & _).
  rewrite S. unfold record_fields. do 4 eexists. split; [reflexivity|].
  split; apply nth_In_labels; (assumption || lia).
Qed.

(** C4, within the range of [datetime]. For every [n_records] from 0 to
    139797264 the file has exactly [n_records + 1] lines, the header and one
    line per row; with the default 1000 these are 1001 lines. *)
Theorem C4_line_count :
  forall (R : RandomState) (os : os_name) (seed n_records : Z) (w : World),
    0 <= seed < 2 ^ 32 -> 0 <= n_records <= 139797264 ->
    exists ts pid glucose meal,
      generates os seed n_records w ts pid glucose meal
      /\ Z.of_nat (line_count (file_text os ts pid glucose meal))
         = n_records + 1
      /\ Z.of_nat (List.length (file_lines (file_text os ts pid glucose meal)))
         = n_records + 1
      /\ Z.of_nat
           (List.length (tl (file_lines (file_text os ts pid glucose meal))))
         = n_records
      /\ (n_records = 1000 ->
          line_count (file_text os ts pid glucose meal) = 1001%nat).
Proof.
  intros R os seed n w Hseed Hn.
  destruct (script_ok os seed n w Hseed Hn)
    as (pid & glucose & meal & G & Lp & Lg & Lm & Fp & Fm & _).
  exists (map timestamp_value (range n)), pid, glucose, meal.
  split; [assumption|].
  pose proof (labels_plain _ _ patients_plain Fp) as Pp.
  pose proof (labels_plain _ _ meals_plain Fm) as Pm.
  unfold file_text.
  destruct (file_of_frame os (map timestamp_value (range n)) pid glucose meal
              Pp Pm) as (E & C & _).
  rewrite E, C. cbn [tl List.length].
  rewrite !length_map, length_seq, range_length.
  repeat split; try lia.
Qed.

(** C5. The first line of the file is the header
    [timestamp,patient_id,glucose_level,meal_context]; every line after it
    has exactly the four fields of its row, in the order of the columns and
    without a row number; and line [i + 1] is row [i]. *)
Theorem C5_header_and_row_order :
  forall (R : RandomState) (os : os_name) (seed n_records : Z) (w : World),
    0 <= seed < 2 ^ 32 -> 0 <= n_records <= max_records ->
    exists ts pid glucose meal,
      generates os seed n_records w ts pid glucose meal
      /\ (exists body,
            file_lines (file_text os ts pid glucose meal)
            = "timestamp,patient_id,glucose_level,meal_context" :: body
            /\ List.length body = Z.to_nat n_records
            /\ forall i, (i < Z.to_nat n_records)%nat ->
                 split comma (nth i body "")
                 = [nth i (format_datetimes ts) ""; nth i pid "";
                    nth i (map float_str glucose) ""; nth i meal ""])
      /\ split comma "timestamp,patient_id,glucose_level,meal_context"
         = ["timestamp"; "patient_id"; "glucose_level"; "meal_context"]
      /\ String.prefix
           ("timestamp,patient_id,glucose_level,meal_context" ++ linesep os)
           (file_text os ts pid glucose meal) = true.
Proof.
  intros R os seed n w Hseed Hn.
  destruct (script_ok os seed n w Hseed Hn)
    as (pid & glucose & meal & G & Lp & Lg & Lm & Fp & Fm & _).
  set (ts := map timestamp_value (range n)) in *.
  assert (Lt : List.length ts = Z.to_nat n)
    by (subst ts; rewrite length_map, range_length; reflexivity).
  clearbody ts.
  exists ts, pid, glucose, meal. split; [assumption|].
  pose proof (labels_plain _ _ patients_plain Fp) as Pp.
  pose proof (labels_plain _ _ meals_plain Fm) as Pm.
  unfold file_text.
  destruct (file_of_frame os ts pid glucose meal Pp Pm) as (E & _).
  split; [|split; [reflexivity|]].
  - eexists. split; [exact E|].
    rewrite length_map, length_seq. split; [assumption|].
    intros i Hi.
    rewrite nth_indep with (d' := record_line ts pid glucose meal O)
      by (rewrite length_map, length_seq; lia).
    rewrite map_nth, seq_nth by lia.
    apply record_line_facts; assumption.
  - rewrite csv_text_frame by assumption. cbn [map].
    rewrite concat_cons. fold header_line.
    generalize (String.concat ""
      (map (fun l => (l ++ linesep os)%string)
         (map (record_line ts pid glucose meal) (seq 0 (List.length ts))))).
    intros rest. induction (header_line ++ linesep os)%string as [|c s IH];
      cbn; [destruct rest; reflexivity|].
    destruct (ascii_dec c c); [exact IH | congruence].
Qed.

(** C6, with the digits that are written. In every data line the glucose
    field is a decimal number with one or two fraction digits: numpy prints
    the shortest text that reads back as the same number, so a value whose
    hundredths end in 0 is written with one digit (110.5, 110.0), any other
    with two. *)
Theorem C6_one_or_two_fraction_digits :
  forall (R : RandomState) (os : os_name) (seed n_records : Z) (w : World),
    0 <= seed < 2 ^ 32 -> 0 <= n_records <= max_records ->
    exists ts pid glucose meal,
      generates os seed n_records w ts pid glucose meal
      /\ (forall line,
            In line (tl (file_lines (file_text os ts pid glucose meal))) ->
            exists f1 f2 f3 f4 g,
              split comma line = [f1; f2; f3; f4]
              /\ In g glucose /\ f3 = float_str g
              /\ fraction_digits f3
                 = Some (if hundredths g mod 10 =? 0 then 1%nat else 2%nat)
              /\ (fraction_digits f3 = Some 1%nat
                  \/ fraction_digits f3 = Some 2%nat)).
Proof.
  intros R os seed n w Hseed Hn.
  destruct (script_ok os seed n w Hseed Hn)
    as (pid & glucose & meal & G & Lp & Lg & Lm & Fp & Fm & _).
  set (ts := map timestamp_value (range n)) in *.
  assert (Lt : List.length ts = Z.to_nat n)
    by (subst ts; rewrite length_map, range_length; reflexivity).
  clearbody ts.
  exists ts, pid, glucose, meal. split; [assumption|].
  pose proof (labels_plain _ _ patients_plain Fp) as Pp.
  pose proof (labels_plain _ _ meals_plain Fm) as Pm.
  intros line Hline. unfold file_text in Hline.
  destruct (file_of_frame os ts pid glucose meal Pp Pm) as (E & _).
  rewrite E in Hline. cbn [tl] in Hline.
  apply data_line_inv in Hline. destruct Hline as (i & Hi & ->).
  destruct (record_line_facts ts pid glucose meal i Pp Pm) as (S & _).
  rewrite S. unfold record_fields.
  set (g := nth i glucose (mk_float2 false 0)).
  exists (nth i (format_datetimes ts) ""), (nth i pid ""), (float_str g),
    (nth i meal ""), g.
  split.
  { subst g.
    rewrite (nth_indep (map float_str glucose) ""
               (float_str (mk_float2 false 0)))
      by (rewrite length_map; lia).
    rewrite map_nth. reflexivity. }
  split; [subst g; apply nth_In; lia|].
  split; [reflexivity|].
  rewrite float_str_fraction_digits.
  split; [reflexivity|]. destruct (_ =? _); tauto.
Qed.

(** C8. A run that completes appends exactly two events: first the write of
    [glucose_data.csv], then one printed line, the notice, which names the
    file. *)
Theorem C8_notice_after_file :
  forall (R : RandomState) (os : os_name) (seed n_records : Z) (w : World),
    0 <= seed < 2 ^ 32 -> 0 <= n_records <= max_records ->
    exists text s,
      script os seed n_records w
      = (Ok tt,
         mk_World s
           (trace w
            ++ [Written "glucose_data.csv" text;
                Printed (notice ++ String LF "")]))
      /\ stdout (trace (snd (script os seed n_records w)))
         = (stdout (trace w) ++ notice ++ String LF "")%string
      /\ line_count (notice ++ String LF "") = 1%nat
      /\ substring_of "glucose_data.csv" notice = true
      /\ file_content "glucose_data.csv"
           (trace (snd (script os seed n_records w))) = Some text.
Proof.
  intros R os seed n w Hseed Hn.
  destruct (script_ok os seed n w Hseed Hn)
    as (pid & glucose & meal & (s & _ & E) & _).
  eexists _, s. split; [exact E|]. rewrite E. cbn [snd trace].
  split; [|split; [reflexivity|split; [reflexivity|]]].
  - rewrite stdout_app. cbn [stdout]. rewrite append_nil_r. reflexivity.
  - apply file_content_last.
Qed.

(** C9. With [n_records = 0] the file consists of the header line alone. *)
Theorem C9_header_only :
  forall (R : RandomState) (os : os_name) (seed : Z) (w : World),
    0 <= seed < 2 ^ 32 ->
    generates os seed 0 w [] [] [] []
    /\ file_text os [] [] [] []
       = ("timestamp,patient_id,glucose_level,meal_context" ++ linesep os)%string
    /\ file_lines (file_text os [] [] [] [])
       = ["timestamp,patient_id,glucose_level,meal_context"]
    /\ line_count (file_text os [] [] [] []) = 1%nat.
Proof.
  intros R os seed w Hseed.
  destruct (script_ok os seed 0 w Hseed ltac:(unfold max_records; lia))
    as (pid & glucose & meal & G & Lp & Lg & Lm & _).
  destruct pid; [|discriminate]. destruct glucose; [|discriminate].
  destruct meal; [|discriminate].
  split; [exact G|]. destruct os; repeat split; reflexivity.
Qed.

(** C10. Every data line has exactly three commas and four fields, and no
    field of any column contains a comma, a quote or a line break: nothing
    in the file is quoted. *)
Theorem C10_no_quoting :
  forall (R : RandomState) (os : os_name) (seed n_records : Z) (w : World),
    0 <= seed < 2 ^ 32 -> 0 <= n_records <= max_records ->
    exists ts pid glucose meal,
      generates os seed n_records w ts pid glucose meal
      /\ (forall line,
            In line (tl (file_lines (file_text os ts pid glucose meal))) ->
            count_char comma line = 3%nat
            /\ List.length (split comma line) = 4%nat
            /\ contains_char dquote line = false
            /\ Forall (fun f => csv_field f = f) (split comma line))
      /\ Forall (fun f => needs_quoting f = false)
                (format_datetimes ts ++ pid ++ map float_str glucose ++ meal)
      /\ contains_char dquote (file_text os ts pid glucose meal) = false.
Proof.
  intros R os seed n w Hseed Hn.
  destruct (script_ok os seed n w Hseed Hn)
    as (pid & glucose & meal & G & Lp & Lg & Lm & Fp & Fm & _).
  set (ts := map timestamp_value (range n)) in *. clearbody ts.
  exists ts, pid, glucose, meal. split; [assumption|].
  pose proof (labels_plain _ _ patients_plain Fp) as Pp.
  pose proof (labels_plain _ _ meals_plain Fm) as Pm.
  unfold file_text.
  destruct (file_of_frame os ts pid glucose meal Pp Pm) as (E & _ & Q).
  split; [|split; [|exact Q]].
  - intros line Hline. rewrite E in Hline. cbn [tl] in Hline.
    apply data_line_inv in Hline. destruct Hline as (i & Hi & ->).
    destruct (record_line_facts ts pid glucose meal i Pp Pm)
      as (S & C & D & _).
    rewrite S. repeat split; try assumption.
    eapply Forall_impl; [|apply record_fields_plain; assumption].
    cbn. intros f Hf. unfold csv_field.
    rewrite plain_needs_no_quoting by assumption. reflexivity.
  - rewrite !Forall_app. repeat split.
    + eapply Forall_impl; [|apply format_datetimes_plain].
      intros f. apply plain_needs_no_quoting.
    + eapply Forall_impl; [|exact Pp]. intros f. apply plain_needs_no_quoting.
    + apply Forall_map, Forall_forall. intros g _.
      apply plain_needs_no_quoting, float_str_plain.
    + eapply Forall_impl; [|exact Pm]. intros f. apply plain_needs_no_quoting.
Qed.

(** ** The properties at concrete inputs *)

(** Two rows from the congruential stream, seed 42. *)
Lemma C2_witness :
  (0 <= 42 < 2 ^ 32 /\ 0 <= 2 <= max_records)
  /\ exists ts pid glucose meal,
       generates (R := lcg) posix 42 2 (@idle_world lcg 0) ts pid glucose meal
       /\ nth_error ts 0 = Some (mk_datetime 2026 1 1 0 0 0 0)
       /\ nth_error ts 1 = Some (mk_datetime 2026 1 1 0 30 0 0).
Proof.
  split; [unfold max_records; lia|].
  destruct (C2_timestamps_every_30_minutes lcg posix 42 2 (@idle_world lcg 0)
              ltac:(lia) ltac:(unfold max_records; lia))
    as (ts & pid & glucose & meal & G & _ & _ & _ & _ & H0 & H1).
  exists ts, pid, glucose, meal.
  split; [exact G|]. split; [apply H0 | apply H1]; lia.
Defined.

Lemma C3_witness :
  (0 <= 42 < 2 ^ 32 /\ 0 <= 2 <= max_records)
  /\ exists ts pid glucose meal,
       generates (R := lcg) posix 42 2 (@idle_world lcg 0) ts pid glucose meal
       /\ Forall (fun p => In p ["P001"; "P002"; "P003"]) pid
       /\ Forall (fun m => In m ["Fasting"; "Post-prandial"; "Before sleep"])
                 meal.
Proof.
  split; [unfold max_records; lia|].
  destruct (C3_labels_from_fixed_sets lcg posix 42 2 (@idle_world lcg 0)
              ltac:(lia) ltac:(unfold max_records; lia))
    as (ts & pid & glucose & meal & G & _ & _ & Hp & Hm & _).
  exists ts, pid, glucose, meal. repeat split; assumption.
Defined.

(** The default configuration: 1000 rows, 1001 lines. *)
Lemma C4_witness :
  (0 <= 42 < 2 ^ 32 /\ 0 <= 1000 <= 139797264)
  /\ exists ts pid glucose meal,
       generates (R := lcg) posix 42 1000 (@idle_world lcg 0) ts pid glucose meal
       /\ line_count (file_text posix ts pid glucose meal) = 1001%nat.
Proof.
  split; [lia|].
  destruct (C4_line_count lcg posix 42 1000 (@idle_world lcg 0)
              ltac:(lia) ltac:(lia))
    as (ts & pid & glucose & meal & G & _ & _ & _ & H).
  exists ts, pid, glucose, meal. split; [exact G | apply H; reflexivity].
Defined.

(** One row too many: the last timestamp would fall in year 10000, the
    comprehension raises [OverflowError], and no file is written. *)
Lemma C4_counterexample :
  ~ (exists text,
       file_content output_path
         (trace (snd (script (R := lcg) posix 42 139797265 (@idle_world lcg 0))))
       = Some text
       /\ Z.of_nat (line_count text) = 139797265 + 1).
Proof.
  rewrite script_overflow by (unfold max_records; lia).
  cbn [snd trace file_content]. intros (text & H & _). discriminate.
Qed.

Lemma C5_witness :
  (0 <= 42 < 2 ^ 32 /\ 0 <= 2 <= max_records)
  /\ exists ts pid glucose meal,
       generates (R := lcg) posix 42 2 (@idle_world lcg 0) ts pid glucose meal
       /\ String.prefix
            ("timestamp,patient_id,glucose_level,meal_context"
             ++ linesep posix)
            (file_text posix ts pid glucose meal) = true.
Proof.
  split; [unfold max_records; lia|].
  destruct (C5_header_and_row_order lcg posix 42 2 (@idle_world lcg 0)
              ltac:(lia) ltac:(unfold max_records; lia))
    as (ts & pid & glucose & meal & G & _ & _ & H).
  exists ts, pid, glucose, meal. split; assumption.
Defined.

Lemma C6_witness :
  (0 <= 42 < 2 ^ 32 /\ 0 <= 5 <= max_records)
  /\ exists ts pid glucose meal,
       generates (R := lcg) posix 42 5 (@idle_world lcg 0) ts pid glucose meal
       /\ forall line,
            In line (tl (file_lines (file_text posix ts pid glucose meal))) ->
            exists f3,
              nth_error (split comma line) 2 = Some f3
              /\ (fraction_digits f3 = Some 1%nat
                  \/ fraction_digits f3 = Some 2%nat).
Proof.
  split; [unfold max_records; lia|].
  destruct (C6_one_or_two_fraction_digits lcg posix 42 5 (@idle_world lcg 0)
              ltac:(lia) ltac:(unfold max_records; lia))
    as (ts & pid & glucose & meal & G & H).
  exists ts, pid, glucose, meal. split; [exact G|].
  intros line Hline.
  destruct (H line Hline) as (f1 & f2 & f3 & f4 & g & S & _ & _ & _ & D).
  exists f3. rewrite S. split; [reflexivity | exact D].
Defined.

(** Three rows from the congruential stream: the third glucose value is
    158.0, written with one fraction digit. *)
Lemma C6_counterexample :
  exists text,
    file_content output_path
      (trace (snd (script (R := lcg) posix 42 3 (@idle_world lcg 0))))
    = Some text
    /\ ~ (forall line,
            In line (tl (file_lines text)) ->
            exists f3,
              nth_error (split comma line) 2 = Some f3
              /\ fraction_digits f3 = Some 2%nat).
Proof.
  eexists. split; [vm_compute; reflexivity|].
  intros H.
  destruct (H "2026-01-01 01:00:00,P003,158.0,Post-prandial")
    as (f3 & E & D).
  - vm_compute. tauto.
  - vm_compute in E. injection E as <-. vm_compute in D. discriminate.
Qed.

Lemma C8_witness :
  (0 <= 42 < 2 ^ 32 /\ 0 <= 2 <= max_records)
  /\ stdout (trace (snd (script (R := lcg) posix 42 2 (@idle_world lcg 0))))
     = (notice ++ String LF "")%string.
Proof.
  split; [unfold max_records; lia|].
  destruct (C8_notice_after_file lcg posix 42 2 (@idle_world lcg 0)
              ltac:(lia) ltac:(unfold max_records; lia))
    as (text & s & _ & H & _).
  exact H.
Defined.

Lemma C9_witness :
  0 <= 42 < 2 ^ 32
  /\ generates (R := lcg) posix 42 0 (@idle_world lcg 0) [] [] [] [].
Proof.
  split; [lia|].
  apply (C9_header_only lcg posix 42 (@idle_world lcg 0)). lia.
Defined.

Lemma C10_witness :
  (0 <= 42 < 2 ^ 32 /\ 0 <= 2 <= max_records)
  /\ exists ts pid glucose meal,
       generates (R := lcg) posix 42 2 (@idle_world lcg 0) ts pid glucose meal
       /\ contains_char dquote (file_text posix ts pid glucose meal) = false.
Proof.
  split; [unfold max_records; lia|].
  destruct (C10_no_quoting lcg posix 42 2 (@idle_world lcg 0)
              ltac:(lia) ltac:(unfold max_records; lia))
    as (ts & pid & glucose & meal & G & _ & _ & H).
  exists ts, pid, glucose, meal. split; assumption.
Defined.

(** ** Further properties of the script *)

Section StreamLayout.

Context {R : RandomState}.
Variable os : os_name.

Lemma take_eq (a : list string) (idx : list Z) :
  Forall (fun i => 0 <= i < Z.of_nat (List.length a)) idx ->
  take a idx = Ok (map (pick a) idx).
Proof.
  intros H. unfold take. apply comprehension_ok. intros i Hi.
  rewrite Forall_forall in H. specialize (H i Hi).
  destruct (Z.ltb_spec i 0); [lia|]. unfold pick.
  destruct (nth_error a (Z.to_nat i)) as [x|] eqn:N.
  - rewrite (nth_error_nth _ _ _ N). reflexivity.
  - apply nth_error_None in N. lia.
Qed.

Lemma np_random_choice_eq (a : list string) (size : Z) (w : World) :
  a <> [] -> 0 <= size ->
  let d := draws (rk_interval (Z.of_nat (List.length a) - 0 - 1))
                 (Z.to_nat size) (random_state w) in
  np_random_choice a size w
  = (Ok (map (pick a) (fst d)), mk_World (snd d) (trace w)).
Proof.
  intros Ha Hsize. cbv zeta. unfold np_random_choice.
  assert (Hpop : 0 < Z.of_nat (List.length a))
    by (destruct a; [congruence | cbn; lia]).
  destruct (Z.eqb_spec (Z.of_nat (List.length a)) 0); [lia|].
  cbn [andb]. unfold bind, np_random_randint.
  destruct (Z.leb_spec (Z.of_nat (List.length a)) 0); [lia|].
  destruct (Z.ltb_spec size 0); [lia|].
  unfold bind, sample, ret, lift.
  assert (Hmax : 0 <= Z.of_nat (List.length a) - 0 - 1) by lia.
  pose proof (draws_Forall
                (fun i => 0 <= i <= Z.of_nat (List.length a) - 0 - 1)
                (rk_interval (Z.of_nat (List.length a) - 0 - 1))
                (Z.to_nat size) (random_state w)
                (fun s => rk_interval_range _ s Hmax)) as F.
  destruct (draws _ _ _) as [l s]. cbn [fst snd] in *.
  rewrite (map_ext (Z.add 0) (fun i => i)) by (intros; reflexivity).
  rewrite map_id, take_eq; [reflexivity|].
  eapply Forall_impl; [|exact F]. cbn. intros; lia.
Qed.

Lemma np_random_normal_eq (loc scale : Q) (size : Z) (w : World) :
  (0 <= scale)%Q -> 0 <= size ->
  let d := draws rk_gauss (Z.to_nat size) (random_state w) in
  np_random_normal loc scale size w
  = (Ok (map (fun g => (loc + scale * g)%Q) (fst d)),
     mk_World (snd d) (trace w)).
Proof.
  intros Hscale Hsize. cbv zeta. unfold np_random_normal.
  apply Qle_bool_iff in Hscale. rewrite Hscale. cbn [negb].
  destruct (Z.ltb_spec size 0); [lia|].
  unfold bind, sample, ret.
  destruct (draws _ _ _) as [l s]. reflexivity.
Qed.

(** The dictionary, in closed form. *)
Lemma build_data_eq (n : Z) (w : World) :
  0 <= n <= max_records ->
  let '(pid, glucose, meal, s) :=
    stream_columns (random_state w) (Z.to_nat n) in
  build_data start_date n w
  = (Ok (frame (map timestamp_value (range n)) pid glucose meal),
     mk_World s (trace w)).
Proof.
  intros Hn. unfold stream_columns, build_data, bind, lift. cbv zeta.
  rewrite timestamps_ok by lia.
  rewrite (np_random_choice_eq patients n w) by (discriminate || lia).
  rewrite np_random_normal_eq by (discriminate || lia).
  cbn [random_state trace].
  rewrite np_random_choice_eq by (discriminate || lia).
  cbn [random_state trace]. unfold ret, frame.
  rewrite map_map. reflexivity.
Qed.

Lemma script_eq (seed n : Z) (w : World) :
  0 <= seed < 2 ^ 32 -> 0 <= n <= max_records ->
  let '(pid, glucose, meal, s) :=
    stream_columns (rk_seed seed) (Z.to_nat n) in
  script os seed n w
  = (Ok tt,
     mk_World s
       (trace w
        ++ [Written output_path
              (file_text os (map timestamp_value (range n)) pid glucose meal);
            Printed (notice ++ String LF "")])).
Proof.
  intros Hseed Hn.
  pose proof (build_data_eq n (mk_World (rk_seed seed) (trace w)) Hn) as E.
  cbn [random_state trace] in E.
  unfold stream_columns in *. cbv zeta in *.
  unfold script, bind, np_random_seed.
  destruct (Z.leb_spec 0 seed); [|lia].
  destruct (Z.ltb_spec seed (2 ^ 32)); [|lia].
  cbn [andb]. unfold lift. rewrite start_date_new, E.
  rewrite DataFrame_new_frame
    by (rewrite !length_map, ?range_length; apply draws_length).
  unfold to_csv, print, emit, file_text. cbn [trace random_state].
  rewrite <- app_assoc. reflexivity.
Qed.

Lemma draws_firstn {A : Type} (f : rk_state -> A * rk_state) (k n : nat)
    (s : rk_state) :
  (k <= n)%nat -> fst (draws f k s) = firstn k (fst (draws f n s)).
Proof.
  revert n s. induction k as [|k IH]; intros n s Hk; [reflexivity|].
  destruct n as [|n]; [lia|]. cbn [draws].
  destruct (f s) as [a s1]. specialize (IH n s1 ltac:(lia)).
  destruct (draws f k s1) as [l1 t1], (draws f n s1) as [l2 t2].
  cbn [fst firstn] in *. congruence.
Qed.

End StreamLayout.

(** X1. The script completes exactly when the seed fits in 32 bits and
    [n_records] lies between 0 and 139797264; a seed out of range and a
    negative [n_records] raise [ValueError], a larger [n_records] raises
    [OverflowError]. *)
Theorem X1_completes_exactly_when :
  forall (R : RandomState) (os : os_name) (seed n_records : Z) (w : World),
    (fst (script os seed n_records w) = Ok tt
     <-> (0 <= seed < 2 ^ 32 /\ 0 <= n_records <= 139797264))
    /\ (~ 0 <= seed < 2 ^ 32 ->
        fst (script os seed n_records w) = Raise ValueError)
    /\ (0 <= seed < 2 ^ 32 -> n_records < 0 ->
        fst (script os seed n_records w) = Raise ValueError)
    /\ (0 <= seed < 2 ^ 32 -> 139797264 < n_records ->
        fst (script os seed n_records w) = Raise OverflowError).
Proof.
  intros R os seed n w.
  assert (Hbad : ~ 0 <= seed < 2 ^ 32 ->
                 fst (script os seed n w) = Raise ValueError)
    by (intros H; rewrite script_bad_seed by assumption; reflexivity).
  assert (Hneg : 0 <= seed < 2 ^ 32 -> n < 0 ->
                 fst (script os seed n w) = Raise ValueError)
    by (intros H1 H2; rewrite script_negative by assumption; reflexivity).
  assert (Hbig : 0 <= seed < 2 ^ 32 -> 139797264 < n ->
                 fst (script os seed n w) = Raise OverflowError)
    by (intros H1 H2; rewrite script_overflow by assumption; reflexivity).
  repeat split; try assumption.
  - destruct (Z.le_gt_cases 0 seed); [assumption|].
    rewrite Hbad in H by lia. discriminate.
  - destruct (Z.lt_ge_cases seed (2 ^ 32)); [assumption|].
    rewrite Hbad in H by lia. discriminate.
  - destruct (Z.le_gt_cases 0 n); [assumption|].
    destruct (Z.le_gt_cases 0 seed); [|rewrite Hbad in H by lia; discriminate].
    destruct (Z.lt_ge_cases seed (2 ^ 32));
      [|rewrite Hbad in H by lia; discriminate].
    rewrite Hneg in H by lia. discriminate.
  - destruct (Z.le_gt_cases n 139797264); [assumption|].
    destruct (Z.le_gt_cases 0 seed); [|rewrite Hbad in H by lia; discriminate].
    destruct (Z.lt_ge_cases seed (2 ^ 32));
      [|rewrite Hbad in H by lia; discriminate].
    rewrite Hbig in H by lia. discriminate.
  - intros (Hseed & Hn).
    destruct (script_ok os seed n w Hseed Hn)
      as (pid & glucose & meal & (s & _ & E) & _).
    rewrite E. reflexivity.
Qed.

(** X2. A run that raises leaves no trace: nothing is written and nothing
    is printed.  A run that completes writes one file, [glucose_data.csv],
    and then prints one line. *)
Theorem X2_failed_run_leaves_no_trace :
  forall (R : RandomState) (os : os_name) (seed n_records : Z) (w : World),
    match fst (script os seed n_records w) with
    | Raise _ => trace (snd (script os seed n_records w)) = trace w
    | Ok _ =>
        exists text,
          trace (snd (script os seed n_records w))
          = trace w ++ [Written "glucose_data.csv" text;
                        Printed (notice ++ String LF "")]
    end.
Proof.
  intros R os seed n w.
  destruct (script_shape os seed n) as (outcome & events & H & Hev).
  destruct (H w) as (-> & ->).
  destruct outcome as [u|e].
  - destruct Hev as (text & ->). exists text. reflexivity.
  - rewrite Hev. apply app_nil_r.
Qed.

(** X3. Running the script again changes nothing but the output: the second
    run ends like the first, leaves the random state and the file exactly as
    the first run left them and, when the runs complete, prints the notice a
    second time. *)
Theorem X3_second_run_rewrites_same_file :
  forall (R : RandomState) (os : os_name) (seed n_records : Z) (w : World),
    let w1 := snd (script os seed n_records w) in
    let w2 := snd (script os seed n_records w1) in
    fst (script os seed n_records w1) = fst (script os seed n_records w)
    /\ random_state w2 = random_state w1
    /\ file_content output_path (trace w2)
       = file_content output_path (trace w1)
    /\ (fst (script os seed n_records w) = Ok tt ->
        stdout (trace w2)
        = (stdout (trace w1) ++ notice ++ String LF "")%string).
Proof.
  intros R os seed n w. cbv zeta.
  destruct (Z.le_gt_cases 0 seed) as [Hs1|Hs1];
    [destruct (Z.lt_ge_cases seed (2 ^ 32)) as [Hs2|Hs2]|].
  2,3: rewrite !script_bad_seed by lia; cbn [fst snd];
       repeat split; try reflexivity; discriminate.
  destruct (Z.le_gt_cases 0 n) as [Hn1|Hn1];
    [destruct (Z.le_gt_cases n max_records) as [Hn2|Hn2]|].
  - pose proof (script_eq os seed n w ltac:(lia) ltac:(lia)) as E1.
    pose proof (fun w' => script_eq os seed n w' ltac:(lia) ltac:(lia)) as E2.
    destruct (stream_columns (rk_seed seed) (Z.to_nat n))
      as [[[pid glucose] meal] s].
    rewrite E1. cbn [snd]. rewrite E2. cbn [fst snd random_state trace].
    repeat split.
    + rewrite !file_content_last. reflexivity.
    + intros _. rewrite !stdout_app. cbn [stdout].
      rewrite !append_nil_r, !append_assoc. reflexivity.
  - rewrite (script_overflow os seed n w) by lia. cbn [snd].
    rewrite script_overflow by lia. cbn [fst snd random_state trace].
    repeat split; try reflexivity; discriminate.
  - rewrite (script_negative os seed n w) by lia. cbn [snd].
    rewrite script_negative by lia. cbn [fst snd random_state trace].
    repeat split; try reflexivity; discriminate.
Qed.

Lemma seq_firstn (k n start : nat) :
  (k <= n)%nat -> firstn k (seq start n) = seq start k.
Proof.
  revert n start. induction k as [|k IH]; intros n start H; [reflexivity|].
  destruct n as [|n]; [lia|]. cbn. rewrite IH by lia. reflexivity.
Qed.

Lemma range_firstn (k n : Z) :
  0 <= k <= n -> range k = firstn (Z.to_nat k) (range n).
Proof.
  intros H. unfold range. rewrite firstn_map, seq_firstn by lia.
  reflexivity.
Qed.

(** X5. The timestamps and the patients of the first rows do not depend on
    how many rows are generated: with the same seed, a run with fewer rows
    produces a prefix of these two columns. *)
Theorem X5_prefix_of_longer_run :
  forall (R : RandomState) (os : os_name) (seed k n : Z) (w w' : World),
    0 <= seed < 2 ^ 32 -> 0 <= k <= n -> n <= max_records ->
    exists ts pid glucose meal ts' pid' glucose' meal',
      generates os seed k w ts pid glucose meal
      /\ generates os seed n w' ts' pid' glucose' meal'
      /\ ts = firstn (Z.to_nat k) ts'
      /\ pid = firstn (Z.to_nat k) pid'.
Proof.
  intros R os seed k n w w' Hseed Hk Hn.
  pose proof (script_eq os seed k w Hseed ltac:(lia)) as E.
  pose proof (build_data_eq k (mk_World (rk_seed seed) (trace w))
                ltac:(lia)) as B.
  pose proof (script_eq os seed n w' Hseed ltac:(lia)) as E'.
  pose proof (build_data_eq n (mk_World (rk_seed seed) (trace w'))
                ltac:(lia)) as B'.
  unfold stream_columns in E, B, E', B'. cbv zeta in E, B, E', B'.
  cbn [random_state trace] in B, B'.
  do 8 eexists. split; [eexists; split; [exact B | exact E]|].
  split; [eexists; split; [exact B' | exact E']|].
  split.
  - rewrite (range_firstn k n) by lia. symmetry. apply firstn_map.
  - rewrite (draws_firstn _ (Z.to_nat k) (Z.to_nat n)) by lia.
    symmetry. apply firstn_map.
Qed.

Lemma all_from_spec (fuel : nat) (n : Z) (p : Z -> bool) :
  all_from fuel n p = true ->
  forall i, n <= i < n + Z.of_nat fuel -> p i = true.
Proof.
  revert n. induction fuel as [|fuel IH]; intros n H i Hi; [lia|].
  cbn [all_from] in H. apply andb_true_iff in H. destruct H as (Hn & Hrest).
  destruct (Z.eq_dec i n) as [->|]; [assumption|].
  apply (IH (n + 1)); [assumption | lia].
Qed.

Lemma four_digits_length (y : Z) :
  1000 <= y <= 9999 -> String.length (str_nonneg y) = 4%nat.
Proof.
  intros H. apply Nat.eqb_eq.
  apply (all_from_spec (Z.to_nat 9000) 1000
           (fun y => Nat.eqb (String.length (str_nonneg y)) 4));
    [vm_compute; reflexivity | lia].
Qed.

Lemma string_length_app (a b : string) :
  String.length (a ++ b) = (String.length a + String.length b)%nat.
Proof. induction a as [|c a IH]; cbn; [|rewrite IH]; reflexivity. Qed.

Lemma timestamp_value_year (i : Z) :
  0 <= i < max_records -> 2026 <= year (timestamp_value i) <= 9999.
Proof.
  intros Hi. pose proof (timestamp_value_valid i Hi) as (V & Y & _).
  split; [|exact Y].
  pose proof (toordinal_timestamp_value i ltac:(lia)) as O.
  pose proof (day_of_year_bound _ _ _ V) as B.
  remember (timestamp_value i) as t eqn:Et. clear Et.
  destruct t as [y m d hh mm ss us].
  cbn [year month day] in *. unfold toordinal, ymd2ord in O.
  cbn [year month day] in O.
  destruct (Z.le_gt_cases 2026 y) as [|Hlt]; [assumption|exfalso].
  pose proof (days_before_year_succ y) as S.
  pose proof (days_before_year_mono (y + 1) 2026 ltac:(lia)) as M.
  assert (D : days_before_year 2026 = 739616) by reflexivity.
  rewrite D in M.
  assert (0 <= i / 48) by (Z.div_mod_to_equations; lia).
  destruct (is_leap y); lia.
Qed.

Lemma timestamp_value_time (i : Z) :
  hour (timestamp_value i) = i mod 48 / 2
  /\ minute (timestamp_value i) = 30 * (i mod 2)
  /\ second (timestamp_value i) = 0
  /\ microsecond (timestamp_value i) = 0.
Proof.
  unfold timestamp_value. destruct (ord2ymd _) as [[y m] d].
  repeat split; reflexivity.
Qed.

Lemma nth_map_lt {A B : Type} (f : A -> B) (l : list A) (i : nat) (d' : B)
    (d : A) :
  (i < List.length l)%nat -> nth i (map f l) d' = f (nth i l d).
Proof.
  intros H. rewrite nth_indep with (d' := f d)
    by (rewrite length_map; assumption).
  apply map_nth.
Qed.

Lemma timestamps_not_dates_only (n : Z) :
  2 <= n -> forallb is_date_only (map timestamp_value (range n)) = false.
Proof.
  intros Hn. destruct (forallb _ _) eqn:E; [exfalso|reflexivity].
  rewrite forallb_forall in E.
  assert (H : is_date_only (timestamp_value 1) = true).
  { apply E, in_map, in_range. lia. }
  vm_compute in H. discriminate.
Qed.

Lemma timestamps_whole_seconds (n : Z) :
  forallb (fun u => microsecond u =? 0) (map timestamp_value (range n)) = true.
Proof.
  apply forallb_forall. intros t Ht. apply in_map_iff in Ht.
  destruct Ht as (i & <- & _).
  destruct (timestamp_value_time i) as (_ & _ & _ & ->). reflexivity.
Qed.

(** X6. Up to 25000 rows, which [to_csv] formats in one piece: a single row
    has its timestamp written as a date, [2026-01-01], because pandas drops
    the time of day from a datetime column that is all midnights; from two
    rows on every timestamp is written as date, space and time of day, 19
    characters, starting with [2026-01-01 00:00:00] and
    [2026-01-01 00:30:00]. *)
Theorem X6_timestamp_text :
  forall (R : RandomState) (os : os_name) (seed n_records : Z) (w : World),
    0 <= seed < 2 ^ 32 -> 1 <= n_records <= 25000 ->
    exists ts pid glucose meal,
      generates os seed n_records w ts pid glucose meal
      /\ (n_records = 1 -> format_datetimes ts = ["2026-01-01"])
      /\ (2 <= n_records ->
          (forall i t,
             nth_error ts i = Some t ->
             nth i (format_datetimes ts) ""
             = (date_str t ++ " " ++ time_str t)%string
             /\ String.length (nth i (format_datetimes ts) "") = 19%nat)
          /\ nth 0 (format_datetimes ts) "" = "2026-01-01 00:00:00"
          /\ nth 1 (format_datetimes ts) "" = "2026-01-01 00:30:00").
Proof.
  intros R os seed n w Hseed Hn.
  assert (Hmax : 25000 <= max_records) by (unfold max_records; lia).
  destruct (script_ok os seed n w Hseed ltac:(lia))
    as (pid & glucose & meal & G & _).
  exists (map timestamp_value (range n)), pid, glucose, meal.
  split; [exact G|]. split; [intros ->; reflexivity|].
  intros H2.
  assert (F : format_datetimes (map timestamp_value (range n))
              = map (fun t => (date_str t ++ " " ++ time_str t)%string)
                    (map timestamp_value (range n))).
  { unfold format_datetimes. rewrite timestamps_not_dates_only by assumption.
    apply map_ext. intros t. unfold subsecond_str. cbv zeta.
    rewrite timestamps_whole_seconds, append_nil_r. reflexivity. }
  rewrite F. split; [|split].
  - intros i t Ht. pose proof Ht as Ht'.
    apply timestamps_nth_inv in Ht'. destruct Ht' as (Hi & ->).
    rewrite (nth_map_lt _ _ _ _ (timestamp_value 0))
      by (rewrite length_map, range_length; assumption).
    rewrite (nth_error_nth _ _ _ Ht). split; [reflexivity|].
    pose proof (timestamp_value_year (Z.of_nat i) ltac:(lia)) as Y.
    pose proof (timestamp_value_valid (Z.of_nat i) ltac:(lia))
      as ((_ & Hm & Hd) & _ & Hh & Hmin & Hsec & _).
    assert (Hd' : 1 <= day (timestamp_value (Z.of_nat i)) <= 31).
    { revert Hd. unfold days_in_month.
      destruct (month_cases _ Hm)
        as [E|[E|[E|[E|[E|[E|[E|[E|[E|[E|[E|E]]]]]]]]]]];
        rewrite E; destruct (is_leap _); eval_tables; cbn [andb]; lia. }
    unfold date_str, time_str. rewrite !string_length_app.
    rewrite four_digits_length by lia.
    rewrite !two_digits_length by lia. reflexivity.
  - destruct (Z.to_nat n) as [|k] eqn:K; [lia|].
    unfold range. rewrite K. reflexivity.
  - destruct (Z.to_nat n) as [|[|k]] eqn:K; [lia|lia|].
    unfold range. rewrite K. reflexivity.
Qed.

Lemma cmp_refl (l : list Z) : cmp l l = Eq.
Proof.
  induction l as [|x l IH]; [reflexivity|].
  cbn [cmp]. rewrite Z.compare_refl. exact IH.
Qed.

Lemma datetime_lt_irrefl (t : datetime) : datetime_lt t t = false.
Proof. unfold datetime_lt. rewrite cmp_refl. reflexivity. Qed.

(** X7. No timestamp occurs twice: the timestamp identifies the row. *)
Theorem X7_timestamps_are_unique :
  forall (R : RandomState) (os : os_name) (seed n_records : Z) (w : World),
    0 <= seed < 2 ^ 32 -> 0 <= n_records <= max_records ->
    exists ts pid glucose meal,
      generates os seed n_records w ts pid glucose meal
      /\ NoDup ts
      /\ forall i j t,
           nth_error ts i = Some t -> nth_error ts j = Some t -> i = j.
Proof.
  intros R os seed n w Hseed Hn.
  destruct (script_ok os seed n w Hseed Hn)
    as (pid & glucose & meal & G & _).
  exists (map timestamp_value (range n)), pid, glucose, meal.
  split; [exact G|].
  assert (U : forall i j t,
             nth_error (map timestamp_value (range n)) i = Some t ->
             nth_error (map timestamp_value (range n)) j = Some t -> i = j).
  { intros i j t Hi Hj.
    apply timestamps_nth_inv in Hi, Hj.
    destruct Hi as (Hi & Ei), Hj as (Hj & Ej).
    destruct (Nat.lt_trichotomy i j) as [L|[E|L]]; [exfalso|exact E|exfalso].
    - pose proof (timestamp_value_lt (Z.of_nat i) (Z.of_nat j)
                    ltac:(lia) ltac:(lia)) as C.
      rewrite <- Ei, <- Ej, datetime_lt_irrefl in C. discriminate.
    - pose proof (timestamp_value_lt (Z.of_nat j) (Z.of_nat i)
                    ltac:(lia) ltac:(lia)) as C.
      rewrite <- Ei, <- Ej, datetime_lt_irrefl in C. discriminate. }
  split; [|exact U].
  apply NoDup_nth_error. intros i j Hi E.
  destruct (nth_error (map timestamp_value (range n)) i) as [t|] eqn:Ht.
  - apply (U i j t); congruence.
  - apply nth_error_None in Ht. lia.
Qed.

(** X8. Forty-eight rows make a day: row [i] falls on the day [i / 48]
    days after 2026-01-01, at hour [(i mod 48) / 2] and minute 0 or 30, with
    no seconds; two rows carry the same date exactly when their indices have
    the same quotient by 48. *)
Theorem X8_rows_per_day :
  forall (R : RandomState) (os : os_name) (seed n_records : Z) (w : World),
    0 <= seed < 2 ^ 32 -> 0 <= n_records <= max_records ->
    exists ts pid glucose meal,
      generates os seed n_records w ts pid glucose meal
      /\ (forall i t,
            nth_error ts (Z.to_nat i) = Some t -> 0 <= i ->
            toordinal t = toordinal start_date + i / 48
            /\ hour t = i mod 48 / 2
            /\ minute t = 30 * (i mod 2)
            /\ second t = 0 /\ microsecond t = 0)
      /\ (forall i j t u,
            nth_error ts (Z.to_nat i) = Some t ->
            nth_error ts (Z.to_nat j) = Some u -> 0 <= i -> 0 <= j ->
            ((year t, month t, day t) = (year u, month u, day u)
             <-> i / 48 = j / 48)).
Proof.
  intros R os seed n w Hseed Hn.
  destruct (script_ok os seed n w Hseed Hn)
    as (pid & glucose & meal & G & _).
  exists (map timestamp_value (range n)), pid, glucose, meal.
  split; [exact G|].
  assert (S0 : toordinal start_date = 739617) by reflexivity.
  split.
  - intros i t Ht Hi. apply timestamps_nth_inv in Ht.
    destruct Ht as (_ & ->). rewrite Z2Nat.id by lia.
    rewrite S0. split; [apply toordinal_timestamp_value; lia|].
    apply timestamp_value_time.
  - intros i j t u Ht Hu Hi Hj.
    apply timestamps_nth_inv in Ht, Hu.
    destruct Ht as (_ & ->), Hu as (_ & ->). rewrite !Z2Nat.id by lia.
    pose proof (toordinal_timestamp_value i Hi) as Oi.
    pose proof (toordinal_timestamp_value j Hj) as Oj.
    split.
    + intros E.
      assert (T : toordinal (timestamp_value i) = toordinal (timestamp_value j)).
      { unfold toordinal. congruence. }
      lia.
    + intros E. unfold timestamp_value. rewrite E.
      destruct (ord2ymd _) as [[y m] d]. reflexivity.
Qed.

(** X9. The script as written, seed 42 and 1000 rows, completes for every
    random stream and on either system: it writes 1001 lines, from
    2026-01-01T00:00:00 in the first row to 2026-01-21T19:30:00 in the last,
    and prints the notice. *)
Theorem X9_default_run :
  forall (R : RandomState) (os : os_name) (w : World),
  exists ts pid glucose meal,
    generates os 42 1000 w ts pid glucose meal
    /\ fst (main os w) = Ok tt
    /\ file_content "glucose_data.csv" (trace (snd (main os w)))
       = Some (file_text os ts pid glucose meal)
    /\ line_count (file_text os ts pid glucose meal) = 1001%nat
    /\ List.length ts = 1000%nat
    /\ nth_error ts 0 = Some (mk_datetime 2026 1 1 0 0 0 0)
    /\ nth_error ts 999 = Some (mk_datetime 2026 1 21 19 30 0 0).
Proof.
  intros R os w.
  destruct (script_ok os 42 1000 w ltac:(lia) ltac:(unfold max_records; lia))
    as (pid & glucose & meal & G & Lp & Lg & Lm & Fp & Fm & _).
  set (ts := map timestamp_value (range 1000)) in *.
  assert (Lt : List.length ts = 1000%nat)
    by (subst ts; rewrite length_map, range_length; reflexivity).
  assert (T0 : nth_error ts 0 = Some (mk_datetime 2026 1 1 0 0 0 0))
    by (subst ts; rewrite timestamps_nth by (cbn; lia); reflexivity).
  assert (T999 : nth_error ts 999 = Some (mk_datetime 2026 1 21 19 30 0 0))
    by (subst ts; rewrite timestamps_nth by (cbn; lia); reflexivity).
  clearbody ts.
  exists ts, pid, glucose, meal. split; [exact G|].
  destruct G as (s & _ & E). unfold main. rewrite E. cbn [fst snd trace].
  split; [reflexivity|]. split; [apply file_content_last|].
  pose proof (labels_plain _ _ patients_plain Fp) as Pp.
  pose proof (labels_plain _ _ meals_plain Fm) as Pm.
  destruct (file_of_frame os ts pid glucose meal Pp Pm) as (_ & C & _).
  unfold file_text. rewrite C, Lt. repeat split; assumption.
Qed.

(** ** The further properties at concrete inputs *)

Lemma X5_witness :
  (0 <= 42 < 2 ^ 32 /\ 0 <= 1 <= 2 /\ 2 <= max_records)
  /\ exists ts pid glucose meal ts' pid' glucose' meal',
       generates (R := lcg) posix 42 1 (@idle_world lcg 0) ts pid glucose meal
       /\ generates (R := lcg) posix 42 2 (@idle_world lcg 0)
            ts' pid' glucose' meal'
       /\ ts = firstn 1 ts' /\ pid = firstn 1 pid'.
Proof.
  split; [unfold max_records; lia|].
  apply (X5_prefix_of_longer_run lcg posix 42 1 2
           (@idle_world lcg 0) (@idle_world lcg 0));
    unfold max_records; lia.
Defined.

Lemma X6_witness :
  (0 <= 42 < 2 ^ 32 /\ 1 <= 1 <= 25000)
  /\ exists ts pid glucose meal,
       generates (R := lcg) posix 42 1 (@idle_world lcg 0) ts pid glucose meal
       /\ format_datetimes ts = ["2026-01-01"].
Proof.
  split; [unfold max_records; lia|].
  destruct (X6_timestamp_text lcg posix 42 1 (@idle_world lcg 0)
              ltac:(lia) ltac:(unfold max_records; lia))
    as (ts & pid & glucose & meal & G & H & _).
  exists ts, pid, glucose, meal. split; [exact G | apply H; reflexivity].
Defined.

Lemma X7_witness :
  (0 <= 42 < 2 ^ 32 /\ 0 <= 2 <= max_records)
  /\ exists ts pid glucose meal,
       generates (R := lcg) posix 42 2 (@idle_world lcg 0) ts pid glucose meal
       /\ NoDup ts.
Proof.
  split; [unfold max_records; lia|].
  destruct (X7_timestamps_are_unique lcg posix 42 2 (@idle_world lcg 0)
              ltac:(lia) ltac:(unfold max_records; lia))
    as (ts & pid & glucose & meal & G & H & _).
  exists ts, pid, glucose, meal. split; assumption.
Defined.

Lemma X8_witness :
  (0 <= 42 < 2 ^ 32 /\ 0 <= 2 <= max_records)
  /\ exists ts pid glucose meal,
       generates (R := lcg) posix 42 2 (@idle_world lcg 0) ts pid glucose meal
       /\ forall t,
            nth_error ts 1 = Some t ->
            toordinal t = toordinal start_date /\ hour t = 0 /\ minute t = 30.
Proof.
  split; [unfold max_records; lia|].
  destruct (X8_rows_per_day lcg posix 42 2 (@idle_world lcg 0)
              ltac:(lia) ltac:(unfold max_records; lia))
    as (ts & pid & glucose & meal & G & H & _).
  exists ts, pid, glucose, meal. split; [exact G|].
  intros t Ht. destruct (H 1 t Ht ltac:(lia)) as (H1 & H2 & H3 & _).
  repeat split; assumption.
Defined.
